(** * pySwitchbot: a shallow embedding of [switchbot/__init__.py]

    The development follows the source file top to bottom: the advertisement
    decoders ([_process_wohand], [_process_wocurtain], [_process_wosensorth]),
    the scan aggregator ([GetSwitchbotDevices]), the transaction engine
    ([SwitchbotDevice._sendcommand]) and the two device classes ([Switchbot],
    [SwitchbotCurtain]).

    Conventions.
    - A Python [bytes] value is a [list Z] of values in [0, 256).
    - A Python [str] is a [string]; its characters stand for the code points
      0..255.
    - A Python [int] is a [Z]; a Python [float] is a binary64 [float].
    - Code that can raise returns an [outcome]; code that talks to the BLE
      link lives in the monad [M], which threads the [World] (the link's
      behaviour and the trace of calls made on it). *)

From Stdlib Require Import ZArith List Bool String Ascii Lia.
From Stdlib Require Import DecimalString Uint63 Floats.
Import ListNotations.

Local Open Scope string_scope.
Local Open Scope list_scope.
Local Open Scope Z_scope.

(* ================================================================== *)
(** * Python values, exceptions and outcomes *)
(* ================================================================== *)

Definition bytes := list Z.

Definition byteb (b : Z) : bool := (0 <=? b) && (b <? 256).
Definition wf_bytes (data : bytes) : bool := forallb byteb data.

(** The exception classes that the modelled code can raise or let through. *)
Inductive exn : Type :=
| BleakError
| TimeoutError
| TypeError
| ValueError
| IndexError
| KeyError
| UnicodeEncodeError.

Inductive outcome (A : Type) : Type :=
| Return (a : A)
| Raise (e : exn).
Arguments Return {A} a.
Arguments Raise {A} e.

Definition obind {A B} (o : outcome A) (k : A -> outcome B) : outcome B :=
  match o with
  | Return a => k a
  | Raise e => Raise e
  end.

Declare Scope outcome_scope.
Delimit Scope outcome_scope with outcome.
Bind Scope outcome_scope with outcome.
Notation "x <- o ;; k" := (obind o (fun x => k))
  (at level 61, o at next level, right associativity) : outcome_scope.

(** [data[i]] on a bytes object. *)
Definition getitem (data : bytes) (i : nat) : outcome Z :=
  match nth_error data i with
  | Some b => Return b
  | None => Raise IndexError
  end.

(** [bool(n)] on an int. *)
Definition truthy (n : Z) : bool := negb (n =? 0).

(* ================================================================== *)
(** * String formatting used by the source *)
(* ================================================================== *)

Definition hex_digit (upper : bool) (d : Z) : ascii :=
  if d <? 10 then ascii_of_nat (Z.to_nat (48 + d))
  else ascii_of_nat (Z.to_nat ((if upper then 55 else 87) + d)).

Fixpoint hex_digits_acc (fuel : nat) (upper : bool) (n : Z) (acc : string)
  : string :=
  match fuel with
  | O => acc
  | S fuel' =>
      let acc' := String (hex_digit upper (n mod 16)) acc in
      if n / 16 =? 0 then acc' else hex_digits_acc fuel' upper (n / 16) acc'
  end.

(** The hexadecimal digits of [n >= 0], without sign, prefix or padding. *)
Definition hex_digits (upper : bool) (n : Z) : string :=
  hex_digits_acc (S (Z.to_nat (Z.log2 n))) upper n "".

Fixpoint zeros (k : nat) : string :=
  match k with
  | O => ""
  | S k' => String "0" (zeros k')
  end.

Definition zero_pad (width : nat) (s : string) : string :=
  (zeros (width - String.length s) ++ s)%string.

(** ["%x" % n]. *)
Definition format_x (n : Z) : string :=
  if n <? 0 then ("-" ++ hex_digits false (- n))%string else hex_digits false n.

(** ["%0.2X" % n]: the precision asks for at least two digits, after the
    sign. *)
Definition format_0_2X (n : Z) : string :=
  if n <? 0 then ("-" ++ zero_pad 2 (hex_digits true (- n)))%string
  else zero_pad 2 (hex_digits true n).

(** [f"{n:0{2}x}"]: sign-aware zero padding to a total width of two. *)
Definition format_02x (n : Z) : string :=
  if n <? 0 then ("-" ++ zero_pad 1 (hex_digits false (- n)))%string
  else zero_pad 2 (hex_digits false n).

(** [format(b, "b")] on a bool. *)
Definition format_b (b : bool) : string := if b then "1" else "0".

(** [s.replace(":", "")]. *)
Fixpoint remove_colons (s : string) : string :=
  match s with
  | EmptyString => EmptyString
  | String c s' =>
      if Ascii.eqb c ":" then remove_colons s' else String c (remove_colons s')
  end.

(** [s.encode("ascii")]. *)
Fixpoint encode_ascii (s : string) : outcome bytes :=
  match s with
  | EmptyString => Return []
  | String c s' =>
      let n := Z.of_nat (nat_of_ascii c) in
      if n <? 128
      then obind (encode_ascii s') (fun rest => Return (n :: rest))
      else Raise UnicodeEncodeError
  end.

Definition hex_value (c : ascii) : option Z :=
  let n := Z.of_nat (nat_of_ascii c) in
  if (48 <=? n) && (n <=? 57) then Some (n - 48)
  else if (97 <=? n) && (n <=? 102) then Some (n - 87)
  else if (65 <=? n) && (n <=? 70) then Some (n - 55)
  else None.

(** [bytearray.fromhex(s)] on a str of hexadecimal digit pairs. *)
Fixpoint fromhex (s : string) : outcome bytes :=
  match s with
  | EmptyString => Return []
  | String hi (String lo s') =>
      match hex_value hi, hex_value lo with
      | Some h, Some l =>
          obind (fromhex s') (fun rest => Return (16 * h + l :: rest))
      | _, _ => Raise ValueError
      end
  | String _ EmptyString => Raise ValueError
  end.

(** [binascii.crc32]: the CRC-32 of zlib (reflected polynomial 0xEDB88320,
    initial value and final xor 0xFFFFFFFF), written bit by bit. *)
Fixpoint crc32_shift (k : nat) (c : Z) : Z :=
  match k with
  | O => c
  | S k' =>
      crc32_shift k'
        (if Z.testbit c 0
         then Z.lxor (Z.shiftr c 1) 0xEDB88320
         else Z.shiftr c 1)
  end.

Definition crc32_update (c b : Z) : Z := crc32_shift 8 (Z.lxor c b).

Definition crc32 (data : bytes) : Z :=
  Z.lxor (fold_left crc32_update data 0xFFFFFFFF) 0xFFFFFFFF.

(* ================================================================== *)
(** * Module constants *)
(* ================================================================== *)

Definition DEFAULT_RETRY_COUNT : Z := 3.
Definition DEFAULT_RETRY_TIMEOUT : Z := 1.
Definition DEFAULT_SCAN_TIMEOUT : Z := 5.

Definition DEVICE_GET_BASIC_SETTINGS_KEY := "5702".
Definition DEVICE_SET_MODE_KEY := "5703".
Definition DEVICE_SET_EXTENDED_KEY := "570f".

Definition PRESS_KEY := "570100".
Definition ON_KEY := "570101".
Definition OFF_KEY := "570102".

Definition OPEN_KEY := "570f450105ff00".
Definition CLOSE_KEY := "570f450105ff64".
Definition POSITION_KEY := "570F450105ff".
Definition STOP_KEY := "570F450100ff".

Definition KEY_PASSWORD_PREFIX := "571".

(* ================================================================== *)
(** * Advertisement decoders *)
(* ================================================================== *)

(** [float(n)] for an int that a double holds exactly. *)
Definition float_of_int (n : Z) : float :=
  if n <? 0 then PrimFloat.opp (PrimFloat.of_uint63 (Uint63.of_Z (- n)))
  else PrimFloat.of_uint63 (Uint63.of_Z n).

(** The dict built by [_process_wohand]. *)
Record bot_data : Type := {
  switchMode : bool;
  isOn : bool;
  bot_battery : Z
}.

Definition _process_wohand (data : bytes) : outcome bot_data :=
  (b1 <- getitem data 1 ;;
   let _switchMode := truthy (Z.land b1 128) in
   _isOn <- (if _switchMode
             then b1' <- getitem data 1 ;; Return (negb (truthy (Z.land b1' 64)))
             else Return false) ;;
   b2 <- getitem data 2 ;;
   Return {| switchMode := _switchMode;
             isOn := _isOn;
             bot_battery := Z.land b2 127 |})%outcome.

(** The dict built by [_process_wocurtain]. *)
Record curtain_data : Type := {
  calibration : bool;
  curtain_battery : Z;
  inMotion : bool;
  position : Z;
  lightLevel : Z;
  deviceChain : Z
}.

Definition _process_wocurtain (data : bytes) (reverse : bool)
  : outcome curtain_data :=
  (b1 <- getitem data 1 ;;
   b2 <- getitem data 2 ;;
   b3 <- getitem data 3 ;;
   let _position := Z.max (Z.min (Z.land b3 127) 100) 0 in
   b4 <- getitem data 4 ;;
   Return {| calibration := truthy (Z.land b1 64);
             curtain_battery := Z.land b2 127;
             inMotion := truthy (Z.land b3 128);
             position := if reverse then 100 - _position else _position;
             lightLevel := Z.land (Z.shiftr b4 4) 15;
             deviceChain := Z.land b4 7 |})%outcome.

(** The dict built by [_process_wosensorth]; ["temp"]["c"] and ["temp"]["f"]
    are the fields [temp_c] and [temp_f]. *)
Record sensor_data : Type := {
  temp_c : float;
  temp_f : float;
  fahrenheit : bool;
  humidity : Z;
  th_battery : Z
}.

Definition _process_wosensorth (data : bytes) : outcome sensor_data :=
  (b4 <- getitem data 4 ;;
   let _temp_sign := if truthy (Z.land b4 128) then 1 else -1 in
   b3 <- getitem data 3 ;;
   let _temp_c :=
     PrimFloat.mul (float_of_int _temp_sign)
       (PrimFloat.add (float_of_int (Z.land b4 127))
          (PrimFloat.div (float_of_int b3) (float_of_int 10))) in
   let _temp_f :=
     PrimFloat.add
       (PrimFloat.div (PrimFloat.mul _temp_c (float_of_int 9)) (float_of_int 5))
       (float_of_int 32) in
   let _temp_f :=
     PrimFloat.div (PrimFloat.mul _temp_f (float_of_int 10)) (float_of_int 10) in
   b5 <- getitem data 5 ;;
   b2 <- getitem data 2 ;;
   Return {| temp_c := _temp_c;
             temp_f := _temp_f;
             fahrenheit := truthy (Z.land b5 128);
             humidity := Z.land b5 127;
             th_battery := Z.land b2 127 |})%outcome.


(* ================================================================== *)
(** * Python dicts with str keys *)
(* ================================================================== *)

Section Dict.
Context {V : Type}.

(** Insertion-ordered, one binding per key. *)
Definition dict : Type := list (string * V).

(** [d[k] = v]: overwrite in place, or append a new binding. *)
Fixpoint dict_set (k : string) (v : V) (d : dict) : dict :=
  match d with
  | [] => [(k, v)]
  | (k', v') :: d' =>
      if String.eqb k' k then (k, v) :: d' else (k', v') :: dict_set k v d'
  end.

Fixpoint dict_get (k : string) (d : dict) : option V :=
  match d with
  | [] => None
  | (k', v') :: d' => if String.eqb k' k then Some v' else dict_get k d'
  end.

(** [d.values()]. *)
Definition dict_values (d : dict) : list V := map snd d.
End Dict.
Arguments dict V : clear implicits.

(* ================================================================== *)
(** * class GetSwitchbotDevices *)
(* ================================================================== *)

(** What the scanner hands to the callback: bleak's [BLEDevice] and
    [AdvertisementData], reduced to the attributes the callback reads. *)
Record BLEDevice : Type := {
  address : string;
  rssi : Z
}.

Record AdvertisementData : Type := {
  adv_service_data : dict bytes
}.

(** The value stored under ["data"]: the initial [{"rssi": ...}] or the dict
    of one of the three decoders. *)
Inductive decoded : Type :=
| DataRssi (r : Z)
| DataBot (d : bot_data)
| DataCurtain (d : curtain_data)
| DataSensor (d : sensor_data).

(** The dict stored per device; ["modelName"] is present only for the three
    known models. *)
Record device_entry : Type := {
  mac_address : string;
  service_data : bytes;
  isEncrypted : bool;
  model : ascii;
  modelName : option string;
  data : decoded
}.

Definition set_modelName (e : device_entry) (name : string) : device_entry :=
  {| mac_address := mac_address e; service_data := service_data e;
     isEncrypted := isEncrypted e; model := model e;
     modelName := Some name; data := data e |}.

Definition set_entry_data (e : device_entry) (d : decoded) : device_entry :=
  {| mac_address := mac_address e; service_data := service_data e;
     isEncrypted := isEncrypted e; model := model e;
     modelName := modelName e; data := d |}.

Record GetSwitchbotDevices : Type := {
  scan_interface : string;
  _all_services_data : dict device_entry;
  _data : dict device_entry
}.

Definition set__data (self : GetSwitchbotDevices) (d : dict device_entry)
  : GetSwitchbotDevices :=
  {| scan_interface := scan_interface self;
     _all_services_data := _all_services_data self;
     _data := d |}.

(** [f"hci{interface}"]. *)
Definition hci (interface : Z) : string :=
  ("hci" ++ DecimalString.NilZero.string_of_int (Z.to_int interface))%string.

Definition GetSwitchbotDevices__init__ (interface : Z) : GetSwitchbotDevices :=
  {| scan_interface := hci interface;
     _all_services_data := [];
     _data := [] |}.

(** [detection_callback]: the object after the call, and whether the call
    returned or raised.  The entry is stored before the decoder runs, so a
    decoder that raises leaves the entry with its [{"rssi": ...}] data. *)
Definition detection_callback (self : GetSwitchbotDevices)
    (device : BLEDevice) (advertisement_data : AdvertisementData)
  : GetSwitchbotDevices * outcome unit :=
  let _device := remove_colons (address device) in
  match dict_values (adv_service_data advertisement_data) with
  | [] => (self, Raise IndexError)
  | _service_data :: _ =>
      match getitem _service_data 0 with
      | Raise e => (self, Raise e)
      | Return b0 =>
          let _model := ascii_of_nat (Z.to_nat (Z.land b0 127)) in
          let entry :=
            {| mac_address := address device;
               service_data := _service_data;
               isEncrypted := truthy (Z.land b0 128);
               model := _model;
               modelName := None;
               data := DataRssi (rssi device) |} in
          let decode (name : string) (d : outcome decoded) :=
            let named := set_modelName entry name in
            match d with
            | Return d' =>
                (set__data self
                   (dict_set _device (set_entry_data named d') (_data self)),
                 Return tt)
            | Raise e =>
                (set__data self (dict_set _device named (_data self)), Raise e)
            end in
          if Ascii.eqb _model "H" then
            decode "WoHand"
              (obind (_process_wohand _service_data)
                 (fun d => Return (DataBot d)))
          else if Ascii.eqb _model "c" then
            decode "WoCurtain"
              (obind (_process_wocurtain _service_data true)
                 (fun d => Return (DataCurtain d)))
          else if Ascii.eqb _model "T" then
            decode "WoSensorTH"
              (obind (_process_wosensorth _service_data)
                 (fun d => Return (DataSensor d)))
          else (set__data self (dict_set _device entry (_data self)), Return tt)
      end
  end.

(** [discover], once awaited: the scanner calls [detection_callback] for each
    advertisement it sees during the scan window ([observed], in order of
    arrival), and the method returns [self._data].  The [devices is None]
    branch cannot run, [devices] being the scanner just built.  An exception
    of the callback stays in the scanner. *)
Definition discover (self : GetSwitchbotDevices)
    (observed : list (BLEDevice * AdvertisementData))
  : GetSwitchbotDevices * dict device_entry :=
  let self' :=
    fold_left (fun s adv => fst (detection_callback s (fst adv) (snd adv)))
      observed self in
  (self', _data self').

(** The four getters are plain [def]s.  When [_all_services_data] is empty
    they evaluate [self.discover()], which builds a coroutine object that is
    never awaited: no scan runs and nothing is stored.  They then read
    [_all_services_data]. *)
Definition models_of (letter : ascii) (d : dict device_entry)
  : dict device_entry :=
  filter (fun kv => Ascii.eqb (model (snd kv)) letter) d.

Definition get_curtains (self : GetSwitchbotDevices) : dict device_entry :=
  models_of "c" (_all_services_data self).

Definition get_bots (self : GetSwitchbotDevices) : dict device_entry :=
  models_of "H" (_all_services_data self).

Definition get_tempsensors (self : GetSwitchbotDevices) : dict device_entry :=
  models_of "T" (_all_services_data self).

(** [get_device_data]: [None] stands for the empty dict [{}] the method
    returns when no entry matches. *)
Definition get_device_data (self : GetSwitchbotDevices) (mac : string)
  : option device_entry :=
  fold_left
    (fun _switchbot_data device =>
       if String.eqb (mac_address device) mac then Some device
       else _switchbot_data)
    (dict_values (_all_services_data self)) None.

(* ================================================================== *)
(** * The BLE link and the monad of the coroutines *)
(* ================================================================== *)

(** The calls the code makes on its [BleakClient], and [time.sleep]. *)
Inductive event : Type :=
| EvConnect
| EvStartNotify
| EvWrite (payload : bytes)
| EvRead
| EvDisconnect
| EvSleep (seconds : Z).

(** How the client answers a call: it returns (a [bytes] for a read,
    ignored for the other calls) or it raises. *)
Inductive reply : Type :=
| Done (received : bytes)
| Fails (e : exn).

(** The client and the device behind it decide the answer to each call from
    the calls made so far; [trace] records those calls, oldest first. *)
Record World : Type := {
  link : list event -> event -> reply;
  trace : list event
}.

Definition M (A : Type) : Type := World -> World * outcome A.

Definition ret {A} (a : A) : M A := fun w => (w, Return a).

Definition raise {A} (e : exn) : M A := fun w => (w, Raise e).

Definition bind {A B} (m : M A) (k : A -> M B) : M B :=
  fun w =>
    match m w with
    | (w', Return a) => k a w'
    | (w', Raise e) => (w', Raise e)
    end.

Definition lift {A} (o : outcome A) : M A := fun w => (w, o).

Declare Scope monad_scope.
Delimit Scope monad_scope with monad.
Notation "x <- m ;; k" := (bind m (fun x => k))
  (at level 61, m at next level, right associativity) : monad_scope.
Notation "m ;; k" := (bind m (fun _ => k))
  (at level 61, right associativity) : monad_scope.

Definition record (ev : event) (w : World) : World :=
  {| link := link w; trace := trace w ++ [ev] |}.

(** One awaited call on the client. *)
Definition call (ev : event) : M bytes :=
  fun w =>
    (record ev w,
     match link w (trace w) ev with
     | Done received => Return received
     | Fails e => Raise e
     end).

(** [time.sleep(seconds)]. *)
Definition sleep (seconds : Z) : M unit :=
  fun w => (record (EvSleep seconds) w, Return tt).

Definition is_BleakError (e : exn) : bool :=
  match e with
  | BleakError => true
  | _ => false
  end.

(** [try: body / except bleak.BleakError: handler]. *)
Definition try_except_BleakError {A} (body handler : M A) : M A :=
  fun w =>
    match body w with
    | (w', Raise e) => if is_BleakError e then handler w' else (w', Raise e)
    | r => r
    end.

(** [try: body / finally: final]. *)
Definition try_finally {A} (body : M A) (final : M unit) : M A :=
  fun w =>
    match body w with
    | (w', r) =>
        match final w' with
        | (w'', Return _) => (w'', r)
        | (w'', Raise e) => (w'', Raise e)
        end
    end.

(* ================================================================== *)
(** * class SwitchbotDevice *)
(* ================================================================== *)

(** A coroutine object: a call of an [async def] that has not been awaited.
    Its body has not run. *)
Inductive coroutine : Type :=
| Co_commandkey (key : string)
| Co_sendcommand (key : string) (retry : Z).

(** The values that reach [_writekey] and that [_sendcommand] returns. *)
Inductive pyval : Type :=
| PStr (s : string)
| PBytes (b : bytes)
| PCoroutine (c : coroutine).

(** The keyword arguments the three constructors pop from [**kwargs]. *)
Record kwargs : Type := {
  kw_scan_timeout : option Z;
  kw_retry_count : option Z;
  kw_inverse_mode : option bool;
  kw_reverse_mode : option bool
}.

Definition no_kwargs : kwargs :=
  {| kw_scan_timeout := None; kw_retry_count := None;
     kw_inverse_mode := None; kw_reverse_mode := None |}.

Definition pop {A} (o : option A) (default : A) : A :=
  match o with
  | Some a => a
  | None => default
  end.

(** [_switchbot_device_data] is [None] for the empty dict [{}]. *)
Record SwitchbotDevice : Type := {
  _interface : string;
  _mac : string;
  _switchbot_device_data : option device_entry;
  _scan_timeout : Z;
  _retry_count : Z;
  _password_encoded : option string
}.

Definition SwitchbotDevice__init__ (mac : string) (password : option string)
    (interface : Z) (kw : kwargs) : outcome SwitchbotDevice :=
  (encoded <-
     match password with
     | None => Return None
     | Some p =>
         if String.eqb p "" then Return None
         else
           b <- encode_ascii p ;;
           Return (Some (format_x (Z.land (crc32 b) 0xFFFFFFFF)))
     end ;;
   Return {| _interface := hci interface;
             _mac := mac;
             _switchbot_device_data := None;
             _scan_timeout := pop (kw_scan_timeout kw) DEFAULT_SCAN_TIMEOUT;
             _retry_count := pop (kw_retry_count kw) DEFAULT_RETRY_COUNT;
             _password_encoded := encoded |})%outcome.

Definition _connect : M unit :=
  try_except_BleakError (call EvConnect ;; ret tt)%monad (raise BleakError).

Definition _disconnect : M unit :=
  try_except_BleakError (call EvDisconnect ;; ret tt)%monad (ret tt).

(** [key[4:]]. *)
Fixpoint string_drop (n : nat) (s : string) : string :=
  match n, s with
  | O, _ => s
  | S n', String _ s' => string_drop n' s'
  | S _, EmptyString => EmptyString
  end.

(** The body of the coroutine [_commandkey]. *)
Definition _commandkey (self : SwitchbotDevice) (key : string) : outcome string :=
  match _password_encoded self with
  | None => Return key
  | Some password_encoded =>
      match String.get 3 key with
      | None => Raise IndexError
      | Some key_action =>
          let key_suffix := string_drop 4 key in
          Return (KEY_PASSWORD_PREFIX ++ String key_action ""
                  ++ password_encoded ++ key_suffix)%string
      end
  end.

(** [_writekey]: [bytearray.fromhex] is evaluated before the client is
    called, and wants a str. *)
Definition _writekey (key : pyval) : M unit :=
  match key with
  | PStr s =>
      (payload <- lift (fromhex s) ;;
       call (EvWrite payload) ;;
       ret tt)%monad
  | PBytes _ | PCoroutine _ => raise TypeError
  end.

Definition _subscribe : M unit := (call EvStartNotify ;; ret tt)%monad.

Definition _readkey : M bytes := call EvRead.

(** The [try] statement of [_sendcommand]; its value is [notify_msg] after
    the statement. *)
Definition _sendcommand_try (command : pyval) (notify_msg : bytes) : M bytes :=
  try_finally
    (try_except_BleakError
       (_connect ;; _subscribe ;; _writekey command ;; _readkey)%monad
       (ret notify_msg))
    _disconnect.

(** [_sendcommand].  [self._commandkey(key)] is not awaited, so [command] is
    a coroutine object; neither is the recursive call of the last line, so
    the method returns that coroutine object without running it. *)
Definition _sendcommand (self : SwitchbotDevice) (key : string) (retry : Z)
  : M pyval :=
  let command := PCoroutine (Co_commandkey key) in
  let notify_msg := [0] in
  (notify_msg <- _sendcommand_try command notify_msg ;;
   match notify_msg with
   | _ :: _ => ret (PBytes notify_msg)
   | [] =>
       if retry <? 1 then ret (PBytes notify_msg)
       else
         sleep DEFAULT_RETRY_TIMEOUT ;;
         ret (PCoroutine (Co_sendcommand key (retry - 1)))
   end)%monad.

(* ================================================================== *)
(** * class Switchbot *)
(* ================================================================== *)

(** [result[0] == code].  A bytes object gives its first byte, or raises
    [IndexError] when empty; a str gives a str, never equal to an int; a
    coroutine object cannot be subscripted. *)
Definition first_is (result : pyval) (code : Z) : outcome bool :=
  match result with
  | PBytes b => obind (getitem b 0) (fun b0 => Return (b0 =? code))
  | PStr s =>
      match s with
      | EmptyString => Raise IndexError
      | String _ _ => Return false
      end
  | PCoroutine _ => Raise TypeError
  end.

Record Switchbot : Type := {
  bot_device : SwitchbotDevice;
  _inverse : bool
}.

Definition Switchbot__init__ (mac : string) (password : option string)
    (interface : Z) (kw : kwargs) : outcome Switchbot :=
  (base <- SwitchbotDevice__init__ mac password interface kw ;;
   Return {| bot_device := base;
             _inverse := pop (kw_inverse_mode kw) false |})%outcome.

(** For each command method, [<method>_result] is the part of the method
    that follows the transaction: it maps the value of [_sendcommand] to the
    value of the method. *)
Definition turn_on_result (result : pyval) : outcome bool :=
  (is1 <- first_is result 1 ;;
   if is1 then Return true
   else
     is5 <- first_is result 5 ;;
     if is5 then Return true else Return false)%outcome.

Definition turn_on (self : Switchbot) : M bool :=
  (result <- _sendcommand (bot_device self) ON_KEY
               (_retry_count (bot_device self)) ;;
   lift (turn_on_result result))%monad.

Definition turn_off_result (result : pyval) : outcome bool :=
  (is1 <- first_is result 1 ;;
   if is1 then Return true
   else
     is5 <- first_is result 5 ;;
     if is5 then Return true else Return false)%outcome.

Definition turn_off (self : Switchbot) : M bool :=
  (result <- _sendcommand (bot_device self) OFF_KEY
               (_retry_count (bot_device self)) ;;
   lift (turn_off_result result))%monad.

Definition press_result (result : pyval) : outcome bool :=
  (is1 <- first_is result 1 ;;
   if is1 then Return true
   else
     is5 <- first_is result 5 ;;
     if is5 then Return true else Return false)%outcome.

Definition press (self : Switchbot) : M bool :=
  (result <- _sendcommand (bot_device self) PRESS_KEY
               (_retry_count (bot_device self)) ;;
   lift (press_result result))%monad.

Definition set_switch_mode_result (result : pyval) : outcome bool :=
  (is1 <- first_is result 1 ;;
   if is1 then Return true else Return false)%outcome.

Definition set_switch_mode (self : Switchbot) (switch_mode : bool)
    (strength : Z) (inverse : bool) : M bool :=
  let mode_key := (format_b switch_mode ++ format_b inverse)%string in
  let strength_key := format_02x strength in
  (result <- _sendcommand (bot_device self)
               (DEVICE_SET_MODE_KEY ++ strength_key ++ mode_key)%string
               (_retry_count (bot_device self)) ;;
   lift (set_switch_mode_result result))%monad.

Definition set_long_press_result (result : pyval) : outcome bool :=
  (is1 <- first_is result 1 ;;
   if is1 then Return true else Return false)%outcome.

Definition set_long_press (self : Switchbot) (duration : Z) : M bool :=
  let duration_key := format_02x duration in
  (result <- _sendcommand (bot_device self)
               (DEVICE_SET_EXTENDED_KEY ++ "08" ++ duration_key)%string
               (_retry_count (bot_device self)) ;;
   lift (set_long_press_result result))%monad.

(** The assignment [self._switchbot_device_data = ...] of
    [get_device_data], through which [update] fills the cache. *)
Definition set_cache (self : Switchbot) (cache : option device_entry)
  : Switchbot :=
  {| bot_device :=
       {| _interface := _interface (bot_device self);
          _mac := _mac (bot_device self);
          _switchbot_device_data := cache;
          _scan_timeout := _scan_timeout (bot_device self);
          _retry_count := _retry_count (bot_device self);
          _password_encoded := _password_encoded (bot_device self) |};
     _inverse := _inverse self |}.

(** [is_on]: Python's [None] is [None]; a cached entry whose ["data"] has no
    ["isOn"] key raises [KeyError]. *)
Definition is_on (self : Switchbot) : M (option bool) :=
  match _switchbot_device_data (bot_device self) with
  | None => ret None
  | Some entry =>
      match data entry with
      | DataBot d =>
          if _inverse self then ret (Some (negb (isOn d)))
          else ret (Some (isOn d))
      | DataRssi _ | DataCurtain _ | DataSensor _ => raise KeyError
      end
  end.

(* ================================================================== *)
(** * class SwitchbotCurtain *)
(* ================================================================== *)

Record SwitchbotCurtain : Type := {
  curtain_device : SwitchbotDevice;
  _reverse : bool
}.

Definition SwitchbotCurtain__init__ (mac : string) (password : option string)
    (interface : Z) (kw : kwargs) : outcome SwitchbotCurtain :=
  (base <- SwitchbotDevice__init__ mac password interface kw ;;
   Return {| curtain_device := base;
             _reverse := pop (kw_reverse_mode kw) true |})%outcome.

Definition open_result (result : pyval) : outcome bool :=
  (is1 <- first_is result 1 ;;
   if is1 then Return true else Return false)%outcome.

Definition open (self : SwitchbotCurtain) : M bool :=
  (result <- _sendcommand (curtain_device self) OPEN_KEY
               (_retry_count (curtain_device self)) ;;
   lift (open_result result))%monad.

Definition close_result (result : pyval) : outcome bool :=
  (is1 <- first_is result 1 ;;
   if is1 then Return true else Return false)%outcome.

Definition close (self : SwitchbotCurtain) : M bool :=
  (result <- _sendcommand (curtain_device self) CLOSE_KEY
               (_retry_count (curtain_device self)) ;;
   lift (close_result result))%monad.

Definition stop_result (result : pyval) : outcome bool :=
  (is1 <- first_is result 1 ;;
   if is1 then Return true else Return false)%outcome.

Definition stop (self : SwitchbotCurtain) : M bool :=
  (result <- _sendcommand (curtain_device self) STOP_KEY
               (_retry_count (curtain_device self)) ;;
   lift (stop_result result))%monad.

(** The key [set_position] hands to [_sendcommand]:
    [POSITION_KEY + "%0.2X" % position], after the reversal. *)
Definition set_position_key (self : SwitchbotCurtain) (position : Z) : string :=
  let position := if _reverse self then 100 - position else position in
  let hex_position := format_0_2X position in
  (POSITION_KEY ++ hex_position)%string.

Definition set_position_result (result : pyval) : outcome bool :=
  (is1 <- first_is result 1 ;;
   if is1 then Return true else Return false)%outcome.

Definition set_position (self : SwitchbotCurtain) (position : Z) : M bool :=
  (result <- _sendcommand (curtain_device self)
               (set_position_key self position)
               (_retry_count (curtain_device self)) ;;
   lift (set_position_result result))%monad.

(* ================================================================== *)
(** * Cached-state accessors *)
(* ================================================================== *)

(** [self._switchbot_device_data["data"]["battery"]]: every decoder stores a
    battery, the initial [{"rssi": ...}] does not. *)
Definition get_battery_percent (self : SwitchbotDevice) : M (option Z) :=
  match _switchbot_device_data self with
  | None => ret None
  | Some entry =>
      match data entry with
      | DataBot d => ret (Some (bot_battery d))
      | DataCurtain d => ret (Some (curtain_battery d))
      | DataSensor d => ret (Some (th_battery d))
      | DataRssi _ => raise KeyError
      end
  end.

Definition get_mac (self : SwitchbotDevice) : M string := ret (_mac self).

Definition switch_mode (self : Switchbot) : M (option bool) :=
  match _switchbot_device_data (bot_device self) with
  | None => ret None
  | Some entry =>
      match data entry with
      | DataBot d => ret (Some (switchMode d))
      | DataRssi _ | DataCurtain _ | DataSensor _ => raise KeyError
      end
  end.

(** The assignment [self._switchbot_device_data = ...] on a curtain. *)
Definition set_curtain_cache (self : SwitchbotCurtain)
    (cache : option device_entry) : SwitchbotCurtain :=
  {| curtain_device :=
       {| _interface := _interface (curtain_device self);
          _mac := _mac (curtain_device self);
          _switchbot_device_data := cache;
          _scan_timeout := _scan_timeout (curtain_device self);
          _retry_count := _retry_count (curtain_device self);
          _password_encoded := _password_encoded (curtain_device self) |};
     _reverse := _reverse self |}.

(** The three accessors of a curtain read one key of the cached ["data"]. *)
Definition curtain_cached {A} (self : SwitchbotCurtain)
    (field : curtain_data -> A) : M (option A) :=
  match _switchbot_device_data (curtain_device self) with
  | None => ret None
  | Some entry =>
      match data entry with
      | DataCurtain d => ret (Some (field d))
      | DataRssi _ | DataBot _ | DataSensor _ => raise KeyError
      end
  end.

Definition get_position (self : SwitchbotCurtain) : M (option Z) :=
  curtain_cached self position.

Definition get_light_level (self : SwitchbotCurtain) : M (option Z) :=
  curtain_cached self lightLevel.

Definition is_calibrated (self : SwitchbotCurtain) : M (option bool) :=
  curtain_cached self calibration.

Definition is_reversed (self : SwitchbotCurtain) : M bool :=
  ret (_reverse self).

(* ================================================================== *)
(** * SwitchbotDevice.get_device_data and update *)
(* ================================================================== *)

(** [GetSwitchbotDevices(interface=s)] for a str [s], which is what
    [get_device_data] passes when it falls back on [self._interface]. *)
Definition GetSwitchbotDevices__init__str (interface : string)
  : GetSwitchbotDevices :=
  {| scan_interface := ("hci" ++ interface)%string;
     _all_services_data := [];
     _data := [] |}.

(** [await d] on a dict: a dict is not awaitable. *)
Definition await_dict (d : option device_entry) : M (option device_entry) :=
  raise TypeError.

(** [SwitchbotDevice.get_device_data]: the object after the call, and the
    outcome.  The getter of the scanner is a plain method, so its dict is
    awaited; the assignment to [_switchbot_device_data] comes after the
    [await].  The [is None] branch cannot run on a dict. *)
Definition SwitchbotDevice_get_device_data (self : SwitchbotDevice)
    (retry : Z) (interface : option Z) (passive : bool)
  : World -> World * (SwitchbotDevice * outcome (option device_entry)) :=
  fun w =>
    let scanner :=
      match interface with
      | Some i =>
          if truthy i then GetSwitchbotDevices__init__ i
          else GetSwitchbotDevices__init__str (_interface self)
      | None => GetSwitchbotDevices__init__str (_interface self)
      end in
    match await_dict (get_device_data scanner (_mac self)) w with
    | (w', Return found) =>
        (w',
         ({| _interface := _interface self;
             _mac := _mac self;
             _switchbot_device_data := found;
             _scan_timeout := _scan_timeout self;
             _retry_count := _retry_count self;
             _password_encoded := _password_encoded self |},
          Return found))
    | (w', Raise e) => (w', (self, Raise e))
    end.

(** [Switchbot.update]. *)
Definition update (self : Switchbot) (interface : option Z) (passive : bool)
  : World -> World * (Switchbot * outcome unit) :=
  fun w =>
    match SwitchbotDevice_get_device_data (bot_device self)
            (_retry_count (bot_device self)) interface passive w with
    | (w', (base, Return _)) =>
        (w', ({| bot_device := base; _inverse := _inverse self |}, Return tt))
    | (w', (base, Raise e)) =>
        (w', ({| bot_device := base; _inverse := _inverse self |}, Raise e))
    end.

(* ================================================================== *)
(** * Command keys built by the Bot methods *)
(* ================================================================== *)

(** The key [set_switch_mode] hands to [_sendcommand]. *)
Definition set_switch_mode_key (switch_mode : bool) (strength : Z)
    (inverse : bool) : string :=
  let mode_key := (format_b switch_mode ++ format_b inverse)%string in
  let strength_key := format_02x strength in
  (DEVICE_SET_MODE_KEY ++ strength_key ++ mode_key)%string.

(** The key [set_long_press] hands to [_sendcommand]. *)
Definition set_long_press_key (duration : Z) : string :=
  let duration_key := format_02x duration in
  (DEVICE_SET_EXTENDED_KEY ++ "08" ++ duration_key)%string.

(* ================================================================== *)
(** * The read methods: get_basic_info *)
(* ================================================================== *)

(** The values the read methods store in their dicts. *)
Inductive pyfield : Type :=
| FInt (n : Z)
| FFloat (x : float)
| FBool (b : bool)
| FStr (s : string).

(** What [v[i]] gives: an int on a bytes object, a one-character str on a
    str. *)
Inductive item : Type :=
| IInt (n : Z)
| IChar (s : string).

Definition subscript (v : pyval) (i : nat) : outcome item :=
  match v with
  | PBytes b => obind (getitem b i) (fun n => Return (IInt n))
  | PStr s =>
      match String.get i s with
      | Some c => Return (IChar (String c ""))
      | None => Raise IndexError
      end
  | PCoroutine _ => Raise TypeError
  end.

Definition stored (x : item) : outcome pyfield :=
  match x with
  | IInt n => Return (FInt n)
  | IChar s => Return (FStr s)
  end.

(** [x / 10.0]. *)
Definition tenth (x : item) : outcome pyfield :=
  match x with
  | IInt n =>
      Return (FFloat (PrimFloat.div (float_of_int n) (float_of_int 10)))
  | IChar _ => Raise TypeError
  end.

(** [bool(x & mask)]. *)
Definition flag (mask : Z) (x : item) : outcome pyfield :=
  match x with
  | IInt n => Return (FBool (truthy (Z.land n mask)))
  | IChar _ => Raise TypeError
  end.

(** [not v]. *)
Definition falsy (v : pyval) : bool :=
  match v with
  | PBytes [] => true
  | PStr EmptyString => true
  | _ => false
  end.

(** [v in (b"\x07", b"\x00")]. *)
Definition is_sentinel (v : pyval) : bool :=
  match v with
  | PBytes [b] => (b =? 7) || (b =? 0)
  | _ => false
  end.

(** Assignments [d[k] = e] made one after the other; the first [e] that
    raises ends them, and the assignments made before it stay. *)
Fixpoint assign_all {V} (fields : list (string * outcome V)) (d : dict V)
  : dict V * outcome unit :=
  match fields with
  | [] => (d, Return tt)
  | (k, Return v) :: rest => assign_all rest (dict_set k v d)
  | (_, Raise e) :: _ => (d, Raise e)
  end.

Definition read_item (v : pyval) (i : nat) (f : item -> outcome pyfield)
  : outcome pyfield :=
  obind (subscript v i) f.

(** The assignments of [Switchbot.get_basic_info], in source order. *)
Definition Switchbot_basic_fields (settings_data : pyval)
  : list (string * outcome pyfield) :=
  [ ("battery", read_item settings_data 1 stored);
    ("firmware", read_item settings_data 2 tenth);
    ("strength", read_item settings_data 3 stored);
    ("timers", read_item settings_data 8 stored);
    ("switchMode", read_item settings_data 9 (flag 16));
    ("inverseDirection", read_item settings_data 9 (flag 1));
    ("holdSeconds", read_item settings_data 10 stored) ].

(** The part of a [get_basic_info] after the transaction: the [_settings]
    dict after the call, and the value returned ([None] for Python's
    [None]) or the exception raised. *)
Definition basic_info_result (fields : list (string * outcome pyfield))
    (_settings : dict pyfield) (settings_data : pyval)
  : dict pyfield * outcome (option (dict pyfield)) :=
  if falsy settings_data then (_settings, Return None)
  else if is_sentinel settings_data then (_settings, Return None)
  else
    match assign_all fields _settings with
    | (_settings', Return _) => (_settings', Return (Some _settings'))
    | (_settings', Raise e) => (_settings', Raise e)
    end.

Definition Switchbot_get_basic_info_result (_settings : dict pyfield)
    (settings_data : pyval) : dict pyfield * outcome (option (dict pyfield)) :=
  basic_info_result (Switchbot_basic_fields settings_data) _settings
    settings_data.

Definition Switchbot_get_basic_info (self : Switchbot)
    (_settings : dict pyfield)
  : World -> World * (dict pyfield * outcome (option (dict pyfield))) :=
  fun w =>
    match _sendcommand (bot_device self) DEVICE_GET_BASIC_SETTINGS_KEY
            (_retry_count (bot_device self)) w with
    | (w', Return settings_data) =>
        (w', Switchbot_get_basic_info_result _settings settings_data)
    | (w', Raise e) => (w', (_settings, Raise e))
    end.

(** ["right_to_left" if x & 0b10000000 == 128 else "left_to_right"]. *)
Definition open_direction (x : item) : outcome pyfield :=
  match x with
  | IInt n =>
      Return (FStr (if Z.land n 128 =? 128 then "right_to_left"
                    else "left_to_right"))
  | IChar _ => Raise TypeError
  end.

(** [max(min(x, 100), 0)], then the reversal. *)
Definition clamped_position (reverse : bool) (x : item) : outcome pyfield :=
  match x with
  | IInt n =>
      let _position := Z.max (Z.min n 100) 0 in
      Return (FInt (if reverse then 100 - _position else _position))
  | IChar _ => Raise TypeError
  end.

(** The assignments of [SwitchbotCurtain.get_basic_info], in source order. *)
Definition SwitchbotCurtain_basic_fields (reverse : bool)
    (settings_data : pyval) : list (string * outcome pyfield) :=
  [ ("battery", read_item settings_data 1 stored);
    ("firmware", read_item settings_data 2 tenth);
    ("chainLength", read_item settings_data 3 stored);
    ("openDirection", read_item settings_data 4 open_direction);
    ("touchToOpen", read_item settings_data 4 (flag 64));
    ("light", read_item settings_data 4 (flag 32));
    ("fault", read_item settings_data 4 (flag 8));
    ("solarPanel", read_item settings_data 5 (flag 8));
    ("calibrated", read_item settings_data 5 (flag 4));
    ("inMotion", read_item settings_data 5 (flag 67));
    ("position", read_item settings_data 6 (clamped_position reverse));
    ("timers", read_item settings_data 7 stored) ].

Definition SwitchbotCurtain_get_basic_info_result (self : SwitchbotCurtain)
    (_settings : dict pyfield) (settings_data : pyval)
  : dict pyfield * outcome (option (dict pyfield)) :=
  basic_info_result
    (SwitchbotCurtain_basic_fields (_reverse self) settings_data) _settings
    settings_data.

Definition SwitchbotCurtain_get_basic_info (self : SwitchbotCurtain)
    (_settings : dict pyfield)
  : World -> World * (dict pyfield * outcome (option (dict pyfield))) :=
  fun w =>
    match _sendcommand (curtain_device self) DEVICE_GET_BASIC_SETTINGS_KEY
            (_retry_count (curtain_device self)) w with
    | (w', Return settings_data) =>
        (w', SwitchbotCurtain_get_basic_info_result self _settings settings_data)
    | (w', Raise e) => (w', (_settings, Raise e))
    end.

(* ================================================================== *)
(** * The read methods: get_extended_info_summary, get_extended_info_adv *)
(* ================================================================== *)

Definition CURTAIN_EXT_SUM_KEY := "570f460401".
Definition CURTAIN_EXT_ADV_KEY := "570f460402".
Definition CURTAIN_EXT_CHAIN_INFO_KEY := "570f468101".

(** [ext_info_sum] and [ext_info_adv]: a dict of dicts, kept on the object
    from one call to the next. *)
Definition info : Type := dict (dict pyfield).

(** Code that updates such a dict and may raise. *)
Definition U (A : Type) : Type := info -> info * outcome A.

Definition uret {A} (a : A) : U A := fun i => (i, Return a).

Definition ubind {A B} (m : U A) (k : A -> U B) : U B :=
  fun i =>
    match m i with
    | (i', Return a) => k a i'
    | (i', Raise e) => (i', Raise e)
    end.

Definition ulift {A} (o : outcome A) : U A := fun i => (i, o).

Declare Scope update_scope.
Delimit Scope update_scope with update.
Notation "x <- m ;; k" := (ubind m (fun x => k))
  (at level 61, m at next level, right associativity) : update_scope.
Notation "m ;; k" := (ubind m (fun _ => k))
  (at level 61, right associativity) : update_scope.

(** [self.ext_info[device] = {}]. *)
Definition new_device (device : string) : U unit :=
  fun i => (dict_set device [] i, Return tt).

(** [self.ext_info[device][key] = value]. *)
Definition set_field (device key : string) (value : pyfield) : U unit :=
  fun i =>
    match dict_get device i with
    | Some fields => (dict_set device (dict_set key value fields) i, Return tt)
    | None => (i, Raise KeyError)
    end.

(** [return self.ext_info]. *)
Definition return_info : U (option info) := fun i => (i, Return (Some i)).

(** The guard [if not data or data[0] != 1] of the two methods: [inl] is
    what the method does when the guard ends it, [inr] the bytes it goes on
    with. *)
Definition ext_guard (data : pyval) : outcome (option info) + bytes :=
  match data with
  | PCoroutine _ => inl (Raise TypeError)
  | PStr _ => inl (Return None)
  | PBytes [] => inl (Return None)
  | PBytes (b0 :: rest) =>
      if b0 =? 1 then inr (b0 :: rest) else inl (Return None)
  end.

(** The part of [get_extended_info_summary] after the transaction. *)
Definition get_extended_info_summary_result (data : pyval) : U (option info) :=
  match ext_guard data with
  | inl o => ulift o
  | inr data =>
      (new_device "device0" ;;
       b1 <- ulift (getitem data 1) ;;
       set_field "device0" "openDirectionDefault"
         (FBool (negb (truthy (Z.land b1 128)))) ;;
       b1 <- ulift (getitem data 1) ;;
       set_field "device0" "touchToOpen" (FBool (truthy (Z.land b1 64))) ;;
       b1 <- ulift (getitem data 1) ;;
       set_field "device0" "light" (FBool (truthy (Z.land b1 32))) ;;
       b1 <- ulift (getitem data 1) ;;
       set_field "device0" "openDirection"
         (FStr (if Z.land b1 16 =? 1 then "left_to_right"
                else "right_to_left")) ;;
       b2 <- ulift (getitem data 2) ;;
       (if negb (b2 =? 0) then
          new_device "device1" ;;
          b1 <- ulift (getitem data 1) ;;
          set_field "device1" "openDirectionDefault"
            (FBool (negb (truthy (Z.land b1 128)))) ;;
          b1 <- ulift (getitem data 1) ;;
          set_field "device1" "touchToOpen" (FBool (truthy (Z.land b1 64))) ;;
          b1 <- ulift (getitem data 1) ;;
          set_field "device1" "light" (FBool (truthy (Z.land b1 32))) ;;
          b1 <- ulift (getitem data 1) ;;
          set_field "device1" "openDirection"
            (FStr (if truthy (Z.land b1 16) then "left_to_right"
                   else "right_to_left"))
        else uret tt) ;;
       return_info)%update
  end.

Definition get_extended_info_summary (self : SwitchbotCurtain)
    (ext_info_sum : info) : World -> World * (info * outcome (option info)) :=
  fun w =>
    match _sendcommand (curtain_device self) CURTAIN_EXT_SUM_KEY
            (_retry_count (curtain_device self)) w with
    | (w', Return data) =>
        (w', get_extended_info_summary_result data ext_info_sum)
    | (w', Raise e) => (w', (ext_info_sum, Raise e))
    end.

(** The [if]/[elif] chain on a charge byte; [None] when no branch runs. *)
Definition state_of_charge (b : Z) : option string :=
  if b =? 0 then Some "not_charging"
  else if b =? 1 then Some "charging_by_adapter"
  else if b =? 2 then Some "charging_by_solar"
  else if (b =? 3) || (b =? 4) then Some "fully_charged"
  else if b =? 5 then Some "solar_not_charging"
  else if b =? 6 then Some "charging_error"
  else None.

(** Both chains of the source assign to [device0]. *)
Definition set_state_of_charge (b : Z) : U unit :=
  match state_of_charge b with
  | Some s => set_field "device0" "stateOfCharge" (FStr s)
  | None => uret tt
  end.

(** The part of [get_extended_info_adv] after the transaction. *)
Definition get_extended_info_adv_result (data : pyval) : U (option info) :=
  match ext_guard data with
  | inl o => ulift o
  | inr data =>
      (new_device "device0" ;;
       b1 <- ulift (getitem data 1) ;;
       set_field "device0" "battery" (FInt b1) ;;
       b2 <- ulift (getitem data 2) ;;
       set_field "device0" "firmware"
         (FFloat (PrimFloat.div (float_of_int b2) (float_of_int 10))) ;;
       b3 <- ulift (getitem data 3) ;;
       set_state_of_charge b3 ;;
       b4 <- ulift (getitem data 4) ;;
       (if truthy b4 then
          new_device "device1" ;;
          b4 <- ulift (getitem data 4) ;;
          set_field "device1" "battery" (FInt b4) ;;
          b5 <- ulift (getitem data 5) ;;
          set_field "device1" "firmware"
            (FFloat (PrimFloat.div (float_of_int b5) (float_of_int 10))) ;;
          b6 <- ulift (getitem data 6) ;;
          set_state_of_charge b6
        else uret tt) ;;
       return_info)%update
  end.

Definition get_extended_info_adv (self : SwitchbotCurtain)
    (ext_info_adv : info) : World -> World * (info * outcome (option info)) :=
  fun w =>
    match _sendcommand (curtain_device self) CURTAIN_EXT_ADV_KEY
            (_retry_count (curtain_device self)) w with
    | (w', Return data) =>
        (w', get_extended_info_adv_result data ext_info_adv)
    | (w', Raise e) => (w', (ext_info_adv, Raise e))
    end.
(* ================================================================== *)
(** * Exhaustive tests over bytes *)
(* ================================================================== *)

Definition byte_range : list Z := map Z.of_nat (seq 0 256).

(** What [sensor_temperature] says about one pair of bytes, as a test. *)
Definition sensor_temp_check (b3 b4 : Z) : bool :=
  let m := PrimFloat.add (float_of_int (Z.land b4 127))
             (PrimFloat.div (float_of_int b3) (float_of_int 10)) in
  let t := PrimFloat.mul
             (float_of_int (if truthy (Z.land b4 128) then 1 else -1)) m in
  PrimFloat.eqb (PrimFloat.abs t) m
  && (if truthy (Z.land b4 128)
      then PrimFloat.leb (float_of_int 0) t
      else PrimFloat.leb t (float_of_int 0)).


(* ================================================================== *)
(** * Traces, test links and reference values *)
(* ================================================================== *)

Definition is_connect (ev : event) : bool :=
  match ev with
  | EvConnect => true
  | _ => false
  end.

Definition is_disconnect (ev : event) : bool :=
  match ev with
  | EvDisconnect => true
  | _ => false
  end.

(** Every event but [time.sleep] is a call on the client. *)
Definition is_link_call (ev : event) : bool :=
  match ev with
  | EvSleep _ => false
  | _ => true
  end.

Definition no_disconnect (evs : list event) : bool :=
  forallb (fun ev => negb (is_disconnect ev)) evs.

(** [evs] holds no disconnect call. *)
Definition quiet (evs : list event) : Prop := no_disconnect evs = true.

(** [evs] holds exactly one disconnect, and it is the last call made on the
    client. *)
Definition disconnects_once (evs : list event) : bool :=
  (List.length (filter is_disconnect evs) =? 1)%nat
  && is_disconnect (last (filter is_link_call evs) EvConnect).

(** [emits m P]: from any world, [m] leaves the link as it is and appends to
    the trace a list of events that satisfies [P]. *)
Definition emits {A} (m : M A) (P : list event -> Prop) : Prop :=
  forall w,
    link (fst (m w)) = link w /\
    exists evs, trace (fst (m w)) = trace w ++ evs /\ P evs.

(** A device that refuses the first [k] connections and from then on accepts
    every call and answers [response] to a read. *)
Definition flaky_link (k : nat) (response : bytes)
  : list event -> event -> reply :=
  fun calls ev =>
    match ev with
    | EvConnect =>
        if (List.length (filter is_connect calls) <? k)%nat
        then Fails BleakError
        else Done []
    | EvRead => Done response
    | _ => Done []
    end.

Definition fresh (l : list event -> event -> reply) : World :=
  {| link := l; trace := [] |}.

(** Does [b] start with the byte [code]?  False for an empty [b]. *)
Definition starts_with (b : bytes) (code : Z) : bool :=
  match b with
  | b0 :: _ => b0 =? code
  | [] => false
  end.

(** The two hexadecimal digits, upper case, of a byte. *)
Definition two_hex (p : Z) : string :=
  String (hex_digit true (p / 16)) (String (hex_digit true (p mod 16)) "").

(** One Bot advertisement, as the scanner reports it. *)
Definition bot_advert : BLEDevice * AdvertisementData :=
  ({| address := "AA:BB:CC:DD:EE:FF"; rssi := -60 |},
   {| adv_service_data :=
        [("00000d00-0000-1000-8000-00805f9b34fb", [0x48; 0xC0; 0x32])] |}).

(** [SwitchbotCurtain("AA:BB:CC:DD:EE:FF", reverse_mode=False)]. *)
Definition plain_curtain : SwitchbotCurtain :=
  {| curtain_device :=
       {| _interface := "hci0";
          _mac := "AA:BB:CC:DD:EE:FF";
          _switchbot_device_data := None;
          _scan_timeout := DEFAULT_SCAN_TIMEOUT;
          _retry_count := DEFAULT_RETRY_COUNT;
          _password_encoded := None |};
     _reverse := false |}.

(** The position the key of [set_position] encodes, before formatting. *)
Definition sent_position (self : SwitchbotCurtain) (position : Z) : Z :=
  if _reverse self then 100 - position else position.

(** A cached Bot record. *)
Definition bot_entry (on : bool) : device_entry :=
  {| mac_address := "AA:BB:CC:DD:EE:FF";
     service_data := [0x48; if on then 0x80 else 0xC0; 0x32];
     isEncrypted := false;
     model := "H";
     modelName := Some "WoHand";
     data := DataBot {| switchMode := true; isOn := on; bot_battery := 50 |} |}.

(* ================================================================== *)
(** * Reference values for the remaining properties *)
(* ================================================================== *)

(** A test on every pair of bytes. *)
Definition all_byte_pairs (P : Z -> Z -> bool) : bool :=
  forallb (fun a => forallb (P a) byte_range) byte_range.

(** The Celsius and Fahrenheit values [_process_wosensorth] computes from
    bytes 3 and 4. *)
Definition celsius_of (b3 b4 : Z) : float :=
  PrimFloat.mul (float_of_int (if truthy (Z.land b4 128) then 1 else -1))
    (PrimFloat.add (float_of_int (Z.land b4 127))
       (PrimFloat.div (float_of_int b3) (float_of_int 10))).

Definition fahrenheit_of (b3 b4 : Z) : float :=
  PrimFloat.div
    (PrimFloat.mul
       (PrimFloat.add
          (PrimFloat.div (PrimFloat.mul (celsius_of b3 b4) (float_of_int 9))
             (float_of_int 5))
          (float_of_int 32))
       (float_of_int 10))
    (float_of_int 10).

(** The temperature facts of [sensor_temperature_range], as a test on one
    pair of bytes. *)
Definition sensor_range_check (b3 b4 : Z) : bool :=
  let c := celsius_of b3 b4 in
  let f := fahrenheit_of b3 b4 in
  PrimFloat.leb (-152.5)%float c && PrimFloat.leb c 152.5%float
  && PrimFloat.leb (-242.5)%float f && PrimFloat.leb f 306.5%float
  && Bool.eqb (PrimFloat.leb c 0%float) (PrimFloat.leb f 32%float)
  && Bool.eqb (PrimFloat.ltb c 0%float) (PrimFloat.ltb f 32%float).

Definition in_range (lo hi n : Z) : bool := (lo <=? n) && (n <=? hi).

(** The key under which [detection_callback] files a device. *)
Definition device_key (device : BLEDevice) : string :=
  remove_colons (address device).

(** The record [detection_callback] stores for an advertisement, read back
    from a scanner that held nothing; [None] when the call stores nothing. *)
Definition stored_entry (device : BLEDevice) (adv : AdvertisementData)
  : option device_entry :=
  dict_get (device_key device)
    (_data (fst (detection_callback (GetSwitchbotDevices__init__ 0) device adv))).

(** The model name the callback gives to a model letter. *)
Definition name_of_model (letter : ascii) : option string :=
  if Ascii.eqb letter "H" then Some "WoHand"
  else if Ascii.eqb letter "c" then Some "WoCurtain"
  else if Ascii.eqb letter "T" then Some "WoSensorTH"
  else None.

Definition option_string_eqb (a b : option string) : bool :=
  match a, b with
  | Some x, Some y => String.eqb x y
  | None, None => true
  | _, _ => false
  end.

(** A stored record is consistent with the key it is filed under: the key is
    its address without colons; its model letter and encryption flag come
    from the first byte of its payload; its model name is the one of the
    letter; and decoded data are of the letter's family. *)
Definition entry_ok (key : string) (e : device_entry) : bool :=
  String.eqb key (remove_colons (mac_address e))
  && match service_data e with
     | [] => false
     | b0 :: _ =>
         Ascii.eqb (model e) (ascii_of_nat (Z.to_nat (Z.land b0 127)))
         && Bool.eqb (isEncrypted e) (Z.testbit b0 7)
     end
  && option_string_eqb (modelName e) (name_of_model (model e))
  && match data e with
     | DataRssi _ => true
     | DataBot _ => Ascii.eqb (model e) "H"
     | DataCurtain _ => Ascii.eqb (model e) "c"
     | DataSensor _ => Ascii.eqb (model e) "T"
     end.

Fixpoint string_forallb (p : ascii -> bool) (s : string) : bool :=
  match s with
  | EmptyString => true
  | String c s' => p c && string_forallb p s'
  end.

(** A digit [0-9] or a letter [a-f]. *)
Definition is_lower_hex (c : ascii) : bool :=
  let n := nat_of_ascii c in
  ((48 <=? n) && (n <=? 57) || (97 <=? n) && (n <=? 102))%nat.

Definition is_ascii (c : ascii) : bool := (nat_of_ascii c <? 128)%nat.


Definition is_setup_or_disconnect (ev : event) : bool :=
  match ev with
  | EvConnect | EvStartNotify | EvDisconnect => true
  | EvWrite _ | EvRead | EvSleep _ => false
  end.

(** [SwitchbotDevice("AA:BB:CC:DD:EE:FF", password="0000")]. *)
Definition locked_device : SwitchbotDevice :=
  {| _interface := "hci0";
     _mac := "AA:BB:CC:DD:EE:FF";
     _switchbot_device_data := None;
     _scan_timeout := DEFAULT_SCAN_TIMEOUT;
     _retry_count := DEFAULT_RETRY_COUNT;
     _password_encoded := Some "c9bc472" |}.

(** One Curtain advertisement: position byte 0x1E, light level 3. *)
Definition curtain_advert : BLEDevice * AdvertisementData :=
  ({| address := "11:22:33:44:55:66"; rssi := -70 |},
   {| adv_service_data :=
        [("00000d00-0000-1000-8000-00805f9b34fb", [0x63; 0x40; 0x50; 0x1E; 0x31])] |}).

Definition bytes_eqb (a b : bytes) : bool :=
  (List.length a =? List.length b)%nat
  && forallb (fun p => fst p =? snd p) (combine a b).

(** Is [o] the returned bytes [b]? *)
Definition returns_bytes (o : outcome bytes) (b : bytes) : bool :=
  match o with
  | Return a => bytes_eqb a b
  | Raise _ => false
  end.

(** The byte [set_switch_mode] sends for the two mode flags. *)
Definition mode_byte (switch_mode inverse : bool) : Z :=
  16 * Z.b2z switch_mode + Z.b2z inverse.

(** The three answers on which a [get_basic_info] returns [None]: nothing,
    [b"\x07"] and [b"\x00"]. *)
Definition is_no_answer (b : bytes) : bool :=
  bytes_eqb b [] || bytes_eqb b [7] || bytes_eqb b [0].

(** The flags [get_extended_info_summary] reads off byte 1. *)
Definition summary_flags (b1 : Z) : dict pyfield :=
  [ ("openDirectionDefault", FBool (negb (Z.testbit b1 7)));
    ("touchToOpen", FBool (Z.testbit b1 6));
    ("light", FBool (Z.testbit b1 5)) ].

(** The ["stateOfCharge"] binding a charge byte gives, if any. *)
Definition charge_field (b : Z) : dict pyfield :=
  match state_of_charge b with
  | Some s => [("stateOfCharge", FStr s)]
  | None => []
  end.

(** The battery and firmware bindings of [get_extended_info_adv]. *)
Definition adv_fields (battery firmware : Z) : dict pyfield :=
  [ ("battery", FInt battery);
    ("firmware",
     FFloat (PrimFloat.div (float_of_int firmware) (float_of_int 10))) ].
(* ================================================================== *)
(** * Properties of the decoders *)
(* ================================================================== *)

Lemma truthy_land_pow2 (b : Z) (n : Z) :
  0 <= n -> truthy (Z.land b (2 ^ n)) = Z.testbit b n.
Proof.
  intros Hn. unfold truthy.
  destruct (Z.testbit b n) eqn:Hbit.
  - destruct (Z.eqb_spec (Z.land b (2 ^ n)) 0) as [E | E]; [ | reflexivity ].
    exfalso.
    assert (Z.testbit (Z.land b (2 ^ n)) n = true) as Hn'.
    { rewrite Z.land_spec, Hbit, Z.pow2_bits_true by lia. reflexivity. }
    rewrite E, Z.bits_0 in Hn'. discriminate.
  - replace (Z.land b (2 ^ n)) with 0; [ reflexivity | ].
    symmetry. apply Z.bits_inj'. intros m Hm.
    rewrite Z.land_spec, Z.bits_0, Z.pow2_bits_eqb by lia.
    destruct (Z.eqb_spec n m) as [-> | _].
    + rewrite Hbit. reflexivity.
    + apply andb_false_r.
Qed.

Lemma getitem_lt (data : bytes) (i : nat) :
  (i < List.length data)%nat -> exists b, nth_error data i = Some b /\ getitem data i = Return b.
Proof.
  intros Hi. unfold getitem.
  destruct (nth_error data i) as [b | ] eqn:E.
  - exists b. split; reflexivity.
  - apply nth_error_None in E. lia.
Qed.

Lemma wf_bytes_nth (data : bytes) (i : nat) (b : Z) :
  wf_bytes data = true -> nth_error data i = Some b -> byteb b = true.
Proof.
  unfold wf_bytes. intros Hwf Hnth.
  rewrite forallb_forall in Hwf. apply Hwf.
  eapply nth_error_In. exact Hnth.
Qed.

Lemma byte_range_complete (b : Z) : byteb b = true -> In b byte_range.
Proof.
  unfold byteb. intros H. apply andb_prop in H as [H0 H1].
  apply Z.leb_le in H0. apply Z.ltb_lt in H1.
  unfold byte_range. apply in_map_iff. exists (Z.to_nat b). split.
  - lia.
  - apply in_seq. lia.
Qed.

Lemma sensor_temp_check_all :
  forallb (fun b3 => forallb (sensor_temp_check b3) byte_range) byte_range = true.
Proof. vm_compute. reflexivity. Qed.

Lemma sensor_temp_check_byte (b3 b4 : Z) :
  byteb b3 = true -> byteb b4 = true -> sensor_temp_check b3 b4 = true.
Proof.
  intros H3 H4.
  pose proof sensor_temp_check_all as Hall.
  rewrite forallb_forall in Hall.
  specialize (Hall b3 (byte_range_complete b3 H3)).
  rewrite forallb_forall in Hall.
  exact (Hall b4 (byte_range_complete b4 H4)).
Qed.

Lemma land_127_range (b : Z) : 0 <= Z.land b 127 <= 127.
Proof.
  change 127 with (Z.ones 7) at 1 2.
  rewrite Z.land_ones by lia.
  pose proof (Z.mod_pos_bound b (2 ^ 7)). lia.
Qed.

Section DictFacts.
Context {V : Type}.

Lemma dict_get_set_same (k : string) (v : V) (d : dict V) :
  dict_get k (dict_set k v d) = Some v.
Proof.
  induction d as [ | [k' v'] d IH]; cbn.
  - rewrite String.eqb_refl. reflexivity.
  - destruct (String.eqb k' k) eqn:E; cbn.
    + rewrite String.eqb_refl. reflexivity.
    + rewrite E. exact IH.
Qed.

Lemma dict_get_set_other (k k' : string) (v : V) (d : dict V) :
  k' <> k -> dict_get k' (dict_set k v d) = dict_get k' d.
Proof.
  intros Hne.
  induction d as [ | [k0 v0] d IH]; cbn.
  - destruct (String.eqb_spec k k') as [E | _]; [ congruence | reflexivity ].
  - destruct (String.eqb_spec k0 k) as [E0 | E0]; cbn.
    + subst k0. destruct (String.eqb_spec k k') as [E | _]; [ congruence | ].
      reflexivity.
    + destruct (String.eqb k0 k'); [ reflexivity | exact IH ].
Qed.
End DictFacts.

(** C6. For a Curtain payload of at least 5 bytes, the raw position is bits
    0-6 of byte 3 and lies in 0..127; the decoder clamps it to [0, 100];
    raw values from 100 up decode to 100 without reversal and to 0 with it;
    and the reversed decode is 100 minus the plain decode. *)
Theorem curtain_position_decode (data : bytes) :
  (5 <= List.length data)%nat ->
  exists b3 d_rev d_fwd,
    nth_error data 3 = Some b3 /\
    _process_wocurtain data true = Return d_rev /\
    _process_wocurtain data false = Return d_fwd /\
    let raw := Z.land b3 127 in
    0 <= raw <= 127 /\
    position d_fwd = Z.max (Z.min raw 100) 0 /\
    0 <= position d_fwd <= 100 /\
    (raw <= 100 -> position d_fwd = raw) /\
    (100 <= raw -> position d_fwd = 100 /\ position d_rev = 0) /\
    position d_rev = 100 - position d_fwd.
Proof.
  intros Hlen.
  destruct (getitem_lt data 1) as (b1 & _ & G1); [ lia | ].
  destruct (getitem_lt data 2) as (b2 & _ & G2); [ lia | ].
  destruct (getitem_lt data 3) as (b3 & N3 & G3); [ lia | ].
  destruct (getitem_lt data 4) as (b4 & _ & G4); [ lia | ].
  unfold _process_wocurtain. rewrite G1, G2, G3, G4. cbn [obind].
  eexists b3, _, _. split; [ exact N3 | ].
  split; [ reflexivity | ]. split; [ reflexivity | ].
  cbn [position]. pose proof (land_127_range b3) as Hraw.
  repeat split; lia.
Qed.

Lemma curtain_position_decode_witness :
  exists b3 d_rev d_fwd,
    nth_error [99; 64; 80; 110; 33] 3 = Some b3 /\
    _process_wocurtain [99; 64; 80; 110; 33] true = Return d_rev /\
    _process_wocurtain [99; 64; 80; 110; 33] false = Return d_fwd /\
    let raw := Z.land b3 127 in
    0 <= raw <= 127 /\
    position d_fwd = Z.max (Z.min raw 100) 0 /\
    0 <= position d_fwd <= 100 /\
    (raw <= 100 -> position d_fwd = raw) /\
    (100 <= raw -> position d_fwd = 100 /\ position d_rev = 0) /\
    position d_rev = 100 - position d_fwd.
Proof.
  apply (curtain_position_decode [99; 64; 80; 110; 33]).
  simpl. lia.
Defined.

(** C7. For a Bot payload of at least 3 bytes, [switchMode] is bit 7 of
    byte 1; [isOn] is false when [switchMode] is false and the negation of
    bit 6 of byte 1 when it is true; [battery] is [byte2 & 0x7F].  And an
    advertisement whose payload starts 0x48, 0xC0, 0x32 is stored as model
    "H" / "WoHand" with switchMode = true, isOn = false, battery = 50,
    whatever the scan has stored before. *)
Theorem bot_decode (data : bytes) :
  (3 <= List.length data)%nat ->
  (exists b1 b2 d,
     nth_error data 1 = Some b1 /\
     nth_error data 2 = Some b2 /\
     _process_wohand data = Return d /\
     switchMode d = Z.testbit b1 7 /\
     (switchMode d = false -> isOn d = false) /\
     (switchMode d = true -> isOn d = negb (Z.testbit b1 6)) /\
     bot_battery d = Z.land b2 127) /\
  (forall (self : GetSwitchbotDevices) (device : BLEDevice) (uuid : string)
          (others : dict bytes) (rest : bytes),
     let payload := 0x48 :: 0xC0 :: 0x32 :: rest in
     let adv := {| adv_service_data := (uuid, payload) :: others |} in
     snd (detection_callback self device adv) = Return tt /\
     dict_get (remove_colons (address device))
       (_data (fst (detection_callback self device adv)))
     = Some {| mac_address := address device;
               service_data := payload;
               isEncrypted := false;
               model := "H";
               modelName := Some "WoHand";
               data := DataBot {| switchMode := true;
                                  isOn := false;
                                  bot_battery := 50 |} |}).
Proof.
  intros Hlen. split.
  - destruct (getitem_lt data 1) as (b1 & N1 & G1); [ lia | ].
    destruct (getitem_lt data 2) as (b2 & N2 & G2); [ lia | ].
    assert (truthy (Z.land b1 128) = Z.testbit b1 7) as H7
      by (apply (truthy_land_pow2 b1 7); lia).
    assert (truthy (Z.land b1 64) = Z.testbit b1 6) as H6
      by (apply (truthy_land_pow2 b1 6); lia).
    unfold _process_wohand. rewrite G1, G2. cbn [obind]. rewrite H7, H6.
    destruct (Z.testbit b1 7) eqn:Hbit; cbn [obind];
      (eexists b1, b2, _; split; [ exact N1 | ]; split; [ exact N2 | ];
       split; [ reflexivity | ]; cbn [switchMode isOn bot_battery];
       rewrite ?Hbit; repeat split; intros; congruence).
  - intros self device uuid others rest payload adv.
    subst adv payload. cbn. split; [ reflexivity | ].
    apply dict_get_set_same.
Qed.

Lemma bot_decode_witness :
  (exists b1 b2 d,
     nth_error [72; 128; 95] 1 = Some b1 /\
     nth_error [72; 128; 95] 2 = Some b2 /\
     _process_wohand [72; 128; 95] = Return d /\
     switchMode d = Z.testbit b1 7 /\
     (switchMode d = false -> isOn d = false) /\
     (switchMode d = true -> isOn d = negb (Z.testbit b1 6)) /\
     bot_battery d = Z.land b2 127).
Proof.
  apply (bot_decode [72; 128; 95]).
  simpl. lia.
Defined.

(** C8. For a SensorTH payload of at least 6 bytes, the decoded Celsius
    temperature is [sign * ((byte4 & 0x7F) + byte3 / 10)] in double
    arithmetic, with [sign = 1] when bit 7 of byte 4 is set and [-1]
    otherwise; its magnitude equals [(byte4 & 0x7F) + byte3 / 10]; bit 7 set
    gives [tempC >= 0] and bit 7 clear gives [tempC <= 0]. *)
Theorem sensor_temperature (data : bytes) :
  (6 <= List.length data)%nat ->
  wf_bytes data = true ->
  exists b3 b4 d,
    nth_error data 3 = Some b3 /\
    nth_error data 4 = Some b4 /\
    _process_wosensorth data = Return d /\
    let magnitude :=
      PrimFloat.add (float_of_int (Z.land b4 127))
        (PrimFloat.div (float_of_int b3) (float_of_int 10)) in
    temp_c d =
      PrimFloat.mul (float_of_int (if Z.testbit b4 7 then 1 else -1)) magnitude /\
    PrimFloat.eqb (PrimFloat.abs (temp_c d)) magnitude = true /\
    (Z.testbit b4 7 = true -> PrimFloat.leb (float_of_int 0) (temp_c d) = true) /\
    (Z.testbit b4 7 = false -> PrimFloat.leb (temp_c d) (float_of_int 0) = true).
Proof.
  intros Hlen Hwf.
  destruct (getitem_lt data 2) as (b2 & _ & G2); [ lia | ].
  destruct (getitem_lt data 3) as (b3 & N3 & G3); [ lia | ].
  destruct (getitem_lt data 4) as (b4 & N4 & G4); [ lia | ].
  destruct (getitem_lt data 5) as (b5 & _ & G5); [ lia | ].
  pose proof (sensor_temp_check_byte b3 b4
                (wf_bytes_nth data 3 b3 Hwf N3) (wf_bytes_nth data 4 b4 Hwf N4))
    as Hcheck.
  unfold sensor_temp_check in Hcheck.
  change 128 with (2 ^ 7) in Hcheck.
  rewrite truthy_land_pow2 in Hcheck by lia.
  apply andb_prop in Hcheck as [Habs Hsign].
  eexists b3, b4, _. split; [ exact N3 | ]. split; [ exact N4 | ].
  split.
  - unfold _process_wosensorth. rewrite G4, G3, G5, G2. cbn [obind]. reflexivity.
  - cbn [temp_c]. change 128 with (2 ^ 7).
    rewrite truthy_land_pow2 by lia.
    split; [ reflexivity | ]. split; [ exact Habs | ].
    split; intros Hbit; rewrite Hbit in Hsign |- *; exact Hsign.
Qed.

Lemma sensor_temperature_witness :
  exists b3 b4 d,
    nth_error [84; 0; 100; 5; 150; 40] 3 = Some b3 /\
    nth_error [84; 0; 100; 5; 150; 40] 4 = Some b4 /\
    _process_wosensorth [84; 0; 100; 5; 150; 40] = Return d /\
    let magnitude :=
      PrimFloat.add (float_of_int (Z.land b4 127))
        (PrimFloat.div (float_of_int b3) (float_of_int 10)) in
    temp_c d =
      PrimFloat.mul (float_of_int (if Z.testbit b4 7 then 1 else -1)) magnitude /\
    PrimFloat.eqb (PrimFloat.abs (temp_c d)) magnitude = true /\
    (Z.testbit b4 7 = true -> PrimFloat.leb (float_of_int 0) (temp_c d) = true) /\
    (Z.testbit b4 7 = false -> PrimFloat.leb (temp_c d) (float_of_int 0) = true).
Proof.
  apply (sensor_temperature [84; 0; 100; 5; 150; 40]).
  - simpl. lia.
  - reflexivity.
Defined.

(* ================================================================== *)
(** * Properties of the scan aggregator *)
(* ================================================================== *)

Lemma detection_callback_all_services_data
    (self : GetSwitchbotDevices) (device : BLEDevice)
    (advertisement_data : AdvertisementData) :
  _all_services_data (fst (detection_callback self device advertisement_data))
  = _all_services_data self.
Proof.
  unfold detection_callback.
  destruct (dict_values (adv_service_data advertisement_data)) as [ | sd ?];
    [ reflexivity | ].
  destruct (getitem sd 0) as [b0 | e]; [ | reflexivity ].
  repeat match goal with
         | |- context [if ?c then _ else _] => destruct c
         | |- context [match ?o with Return _ => _ | Raise _ => _ end] =>
             destruct o
         end; reflexivity.
Qed.

Lemma discover_all_services_data
    (observed : list (BLEDevice * AdvertisementData))
    (self : GetSwitchbotDevices) :
  _all_services_data (fst (discover self observed)) = _all_services_data self.
Proof.
  unfold discover. cbn [fst].
  revert self. induction observed as [ | adv observed IH]; intros self.
  - reflexivity.
  - cbn [fold_left]. rewrite IH. apply detection_callback_all_services_data.
Qed.

(** Whatever a scan has seen, the getters of a scanner object answer as if
    nothing had been seen: they read [_all_services_data], which no method
    writes. *)
Lemma getters_empty_after_discover
    (interface : Z) (observed : list (BLEDevice * AdvertisementData))
    (mac : string) :
  let self := fst (discover (GetSwitchbotDevices__init__ interface) observed) in
  get_device_data self mac = None /\
  get_bots self = [] /\ get_curtains self = [] /\ get_tempsensors self = [].
Proof.
  intros self.
  assert (_all_services_data self = []) as E
    by (subst self; rewrite discover_all_services_data; reflexivity).
  unfold get_device_data, get_bots, get_curtains, get_tempsensors.
  rewrite E. repeat split.
Qed.

(** C5, on the code.  A scan that sees one Bot advertisement from
    AA:BB:CC:DD:EE:FF stores its classified record in [_data], and yet the
    lookup by that address returns the empty result and the Bot enumeration
    is empty. *)
Theorem observed_bot_is_not_returned :
  let self := fst (discover (GetSwitchbotDevices__init__ 0) [bot_advert]) in
  dict_get "AABBCCDDEEFF" (_data self)
  = Some {| mac_address := "AA:BB:CC:DD:EE:FF";
            service_data := [0x48; 0xC0; 0x32];
            isEncrypted := false;
            model := "H";
            modelName := Some "WoHand";
            data := DataBot {| switchMode := true;
                               isOn := false;
                               bot_battery := 50 |} |} /\
  get_device_data self "AA:BB:CC:DD:EE:FF" = None /\
  get_device_data self "AABBCCDDEEFF" = None /\
  get_bots self = [].
Proof. vm_compute. repeat split. Qed.

(* ================================================================== *)
(** * Properties of the transaction engine *)
(* ================================================================== *)

Section Emits.
Variable P : list event -> Prop.
Hypothesis P_nil : P [].
Hypothesis P_app : forall evs evs', P evs -> P evs' -> P (evs ++ evs').

Lemma emits_ret {A} (a : A) : emits (ret a) P.
Proof.
  intros w. split; [ reflexivity | ].
  exists []. cbn. rewrite app_nil_r. split; [ reflexivity | exact P_nil ].
Qed.

Lemma emits_raise {A} (e : exn) : emits (@raise A e) P.
Proof.
  intros w. split; [ reflexivity | ].
  exists []. cbn. rewrite app_nil_r. split; [ reflexivity | exact P_nil ].
Qed.

Lemma emits_lift {A} (o : outcome A) : emits (lift o) P.
Proof.
  intros w. split; [ reflexivity | ].
  exists []. cbn. rewrite app_nil_r. split; [ reflexivity | exact P_nil ].
Qed.

Lemma emits_call (ev : event) : P [ev] -> emits (call ev) P.
Proof.
  intros Hev w. split; [ reflexivity | ].
  exists [ev]. split; [ reflexivity | exact Hev ].
Qed.

Lemma emits_sleep (seconds : Z) : P [EvSleep seconds] -> emits (sleep seconds) P.
Proof.
  intros Hev w. split; [ reflexivity | ].
  exists [EvSleep seconds]. split; [ reflexivity | exact Hev ].
Qed.

Lemma emits_bind {A B} (m : M A) (k : A -> M B) :
  emits m P -> (forall a, emits (k a) P) -> emits (bind m k) P.
Proof.
  intros Hm Hk w. unfold bind.
  destruct (Hm w) as (Hl & evs & Ht & Hp).
  destruct (m w) as [w1 [a | e]]; cbn [fst] in *.
  - destruct (Hk a w1) as (Hl' & evs' & Ht' & Hp').
    split; [ congruence | ].
    exists (evs ++ evs'). rewrite Ht', Ht, app_assoc.
    split; [ reflexivity | apply P_app; assumption ].
  - split; [ exact Hl | ]. exists evs. split; assumption.
Qed.

Lemma emits_try_except {A} (body handler : M A) :
  emits body P -> emits handler P ->
  emits (try_except_BleakError body handler) P.
Proof.
  intros Hb Hh w. unfold try_except_BleakError.
  destruct (Hb w) as (Hl & evs & Ht & Hp).
  destruct (body w) as [w1 [a | e]]; cbn [fst] in *.
  - split; [ exact Hl | ]. exists evs. split; assumption.
  - destruct (is_BleakError e).
    + destruct (Hh w1) as (Hl' & evs' & Ht' & Hp').
      split; [ congruence | ].
      exists (evs ++ evs'). rewrite Ht', Ht, app_assoc.
      split; [ reflexivity | apply P_app; assumption ].
    + split; [ exact Hl | ]. exists evs. split; assumption.
Qed.

Lemma emits_try_finally {A} (body : M A) (final : M unit) :
  emits body P -> emits final P -> emits (try_finally body final) P.
Proof.
  intros Hb Hf w. unfold try_finally.
  destruct (Hb w) as (Hl & evs & Ht & Hp).
  destruct (body w) as [w1 r]; cbn [fst] in *.
  destruct (Hf w1) as (Hl' & evs' & Ht' & Hp').
  assert (link (fst (final w1)) = link w
          /\ exists evs0, trace (fst (final w1)) = trace w ++ evs0 /\ P evs0)
    as Hgoal.
  { split; [ congruence | ].
    exists (evs ++ evs'). rewrite Ht', Ht, app_assoc.
    split; [ reflexivity | apply P_app; assumption ]. }
  destruct (final w1) as [w2 [u | e]]; exact Hgoal.
Qed.
End Emits.

Lemma emits_weaken {A} (m : M A) (P Q : list event -> Prop) :
  (forall evs, P evs -> Q evs) -> emits m P -> emits m Q.
Proof.
  intros HPQ Hm w. destruct (Hm w) as (Hl & evs & Ht & Hp).
  split; [ exact Hl | ]. exists evs. split; [ exact Ht | exact (HPQ _ Hp) ].
Qed.

Lemma quiet_nil : quiet [].
Proof. reflexivity. Qed.

Lemma quiet_app (evs evs' : list event) :
  quiet evs -> quiet evs' -> quiet (evs ++ evs').
Proof.
  unfold quiet, no_disconnect. intros H H'.
  rewrite forallb_app, H, H'. reflexivity.
Qed.

Lemma quiet_filter (evs : list event) :
  quiet evs -> filter is_disconnect evs = [].
Proof.
  unfold quiet, no_disconnect.
  induction evs as [ | ev evs IH]; cbn; [ reflexivity | ].
  intros H. apply andb_prop in H as [Hev Hrest].
  destruct (is_disconnect ev); [ discriminate | exact (IH Hrest) ].
Qed.

Lemma disconnects_once_snoc (evs : list event) :
  quiet evs -> disconnects_once (evs ++ [EvDisconnect]) = true.
Proof.
  intros Hq. unfold disconnects_once.
  rewrite !filter_app, (quiet_filter evs Hq). cbn [filter is_disconnect is_link_call].
  rewrite last_last. reflexivity.
Qed.

Lemma disconnects_once_sleep (evs : list event) (seconds : Z) :
  disconnects_once evs = true ->
  disconnects_once (evs ++ [EvSleep seconds]) = true.
Proof.
  unfold disconnects_once. rewrite !filter_app.
  cbn [filter is_disconnect is_link_call]. rewrite !app_nil_r. trivial.
Qed.

(** The body of the [try] statement makes no disconnect call. *)
Lemma sendcommand_body_quiet (command : pyval) (notify_msg : bytes) :
  emits
    (try_except_BleakError
       (_connect ;; _subscribe ;; _writekey command ;; _readkey)%monad
       (ret notify_msg))
    quiet.
Proof.
  pose proof quiet_nil as Hnil. pose proof quiet_app as Happ.
  unfold _connect, _subscribe, _readkey, _writekey.
  destruct command as [s | b | c];
    repeat (first [ apply emits_ret | apply emits_raise | apply emits_lift
                  | apply emits_call | apply emits_try_except
                  | apply emits_bind | intros ? ];
            try assumption; try reflexivity).
Qed.

(** [_disconnect] makes the disconnect call and nothing else, and lets only
    exceptions other than [BleakError] through. *)
Lemma disconnect_trace (w : World) :
  link (fst (_disconnect w)) = link w /\
  trace (fst (_disconnect w)) = trace w ++ [EvDisconnect].
Proof.
  unfold _disconnect, try_except_BleakError, bind, call, ret, record.
  destruct (link w (trace w) EvDisconnect) as [received | e]; cbn.
  - split; reflexivity.
  - destruct (is_BleakError e); cbn; split; reflexivity.
Qed.

Lemma sendcommand_try_disconnects_once (command : pyval) (notify_msg : bytes) :
  emits (_sendcommand_try command notify_msg)
        (fun evs => disconnects_once evs = true).
Proof.
  intros w. unfold _sendcommand_try, try_finally.
  destruct (sendcommand_body_quiet command notify_msg w) as (Hl & evs & Ht & Hq).
  destruct (try_except_BleakError _ _ w) as [w1 r]; cbn [fst] in *.
  destruct (disconnect_trace w1) as (Hl' & Ht').
  assert (link (fst (_disconnect w1)) = link w
          /\ exists evs0, trace (fst (_disconnect w1)) = trace w ++ evs0
                          /\ disconnects_once evs0 = true) as Hgoal.
  { split; [ congruence | ].
    exists (evs ++ [EvDisconnect]). rewrite Ht', Ht, app_assoc.
    split; [ reflexivity | apply disconnects_once_snoc; exact Hq ]. }
  destruct (_disconnect w1) as [w2 [u | e]]; exact Hgoal.
Qed.

(** C9. Whatever the link does (every call may return or raise any
    exception, a timeout included) and whatever is written, the [try]
    statement of [_sendcommand], and so every call of [_sendcommand], makes
    exactly one disconnect call, and makes no other call on the link after
    it. *)
Theorem sendcommand_always_disconnects :
  (forall (command : pyval) (notify_msg : bytes) (w : World),
     exists evs,
       trace (fst (_sendcommand_try command notify_msg w)) = trace w ++ evs /\
       disconnects_once evs = true) /\
  (forall (self : SwitchbotDevice) (key : string) (retry : Z) (w : World),
     exists evs,
       trace (fst (_sendcommand self key retry w)) = trace w ++ evs /\
       disconnects_once evs = true).
Proof.
  split.
  - intros command notify_msg w.
    exact (proj2 (sendcommand_try_disconnects_once command notify_msg w)).
  - intros self key retry w. unfold _sendcommand, bind.
    destruct (sendcommand_try_disconnects_once (PCoroutine (Co_commandkey key))
                [0] w) as (_ & evs & Ht & Hd).
    destruct (_sendcommand_try _ _ w) as [w1 [notify_msg | e]]; cbn [fst] in *.
    + destruct notify_msg as [ | b0 rest].
      * destruct (retry <? 1); cbn.
        -- exists evs. split; assumption.
        -- exists (evs ++ [EvSleep DEFAULT_RETRY_TIMEOUT]).
           rewrite Ht, app_assoc.
           split; [ reflexivity | apply disconnects_once_sleep; exact Hd ].
      * cbn. exists evs. split; assumption.
    + exists evs. split; assumption.
Qed.

(** A refused connection is not retried: the [BleakError] is caught, the
    preset [b"\x00"] is not empty, and [_sendcommand] returns it after one
    attempt, whatever [retry] is. *)
Lemma sendcommand_refused_connection
    (self : SwitchbotDevice) (key : string) (retry : Z) (w : World) :
  link w (trace w) EvConnect = Fails BleakError ->
  link w (trace w ++ [EvConnect]) EvDisconnect = Done [] ->
  _sendcommand self key retry w
  = ({| link := link w; trace := (trace w ++ [EvConnect]) ++ [EvDisconnect] |},
     Return (PBytes [0])).
Proof.
  intros Hc Hd.
  unfold _sendcommand, _sendcommand_try, try_finally, try_except_BleakError,
    _connect, _disconnect, try_except_BleakError, bind, call, ret, raise, record.
  cbn. rewrite Hc. cbn. rewrite Hd. cbn. reflexivity.
Qed.

(** C2, on the code.  Against a device that refuses the first connection and
    accepts the next, with the default three retries, [_sendcommand] makes one
    attempt and returns the preset [b"\x00"], not the device's answer
    [b"\x01"].  Against a device that accepts every call, it raises
    [TypeError] before anything is written: [command] is a coroutine object,
    which [bytearray.fromhex] refuses. *)
Theorem sendcommand_does_not_retry (self : SwitchbotDevice) :
  _sendcommand self ON_KEY DEFAULT_RETRY_COUNT (fresh (flaky_link 1 [1]))
  = ({| link := flaky_link 1 [1]; trace := [EvConnect; EvDisconnect] |},
     Return (PBytes [0])) /\
  _sendcommand self ON_KEY DEFAULT_RETRY_COUNT (fresh (flaky_link 0 [1]))
  = ({| link := flaky_link 0 [1];
        trace := [EvConnect; EvStartNotify; EvDisconnect] |},
     Raise TypeError).
Proof. split; reflexivity. Qed.

(* ================================================================== *)
(** * Properties of the device classes *)
(* ================================================================== *)

(** Each command method is its transaction followed by its [_result]. *)
Lemma turn_on_unfold (self : Switchbot) (w : World) :
  turn_on self w
  = match _sendcommand (bot_device self) ON_KEY
            (_retry_count (bot_device self)) w with
    | (w', Return result) => (w', turn_on_result result)
    | (w', Raise e) => (w', Raise e)
    end.
Proof. reflexivity. Qed.

Lemma set_position_unfold (self : SwitchbotCurtain) (position : Z) (w : World) :
  set_position self position w
  = match _sendcommand (curtain_device self) (set_position_key self position)
            (_retry_count (curtain_device self)) w with
    | (w', Return result) => (w', set_position_result result)
    | (w', Raise e) => (w', Raise e)
    end.
Proof. reflexivity. Qed.

(** On a result that is not empty the nine command methods return a boolean
    read off the first byte. *)
Lemma command_results_nonempty (b0 : Z) (rest : bytes) :
  let result := PBytes (b0 :: rest) in
  turn_on_result result = Return ((b0 =? 1) || (b0 =? 5)) /\
  turn_off_result result = Return ((b0 =? 1) || (b0 =? 5)) /\
  press_result result = Return ((b0 =? 1) || (b0 =? 5)) /\
  set_switch_mode_result result = Return (b0 =? 1) /\
  set_long_press_result result = Return (b0 =? 1) /\
  open_result result = Return (b0 =? 1) /\
  close_result result = Return (b0 =? 1) /\
  stop_result result = Return (b0 =? 1) /\
  set_position_result result = Return (b0 =? 1).
Proof.
  cbn. destruct (b0 =? 1); destruct (b0 =? 5); repeat split.
Qed.

(** C3, on the code.  On the empty result, which [_sendcommand] returns on
    its [retry < 1] path, each of the nine command methods raises
    [IndexError] at [result[0]] instead of returning false.  End to end,
    [turn_on] raises [TypeError] against a device that accepts every call,
    and returns false against one that refuses the connection. *)
Theorem command_methods_raise_on_empty_result :
  (turn_on_result (PBytes []) = Raise IndexError /\
   turn_off_result (PBytes []) = Raise IndexError /\
   press_result (PBytes []) = Raise IndexError /\
   set_switch_mode_result (PBytes []) = Raise IndexError /\
   set_long_press_result (PBytes []) = Raise IndexError /\
   open_result (PBytes []) = Raise IndexError /\
   close_result (PBytes []) = Raise IndexError /\
   stop_result (PBytes []) = Raise IndexError /\
   set_position_result (PBytes []) = Raise IndexError) /\
  (forall self : Switchbot,
     snd (turn_on self (fresh (flaky_link 0 [1]))) = Raise TypeError /\
     snd (turn_on self (fresh (flaky_link 1 [1]))) = Return false).
Proof.
  split; [ repeat split | intros self; split; reflexivity ].
Qed.

(** ** The key of [set_position] *)

Lemma string_length_app (s t : string) :
  String.length (s ++ t) = (String.length s + String.length t)%nat.
Proof.
  induction s as [ | c s IH]; cbn; [ reflexivity | rewrite IH; reflexivity ].
Qed.

Lemma string_app_inv_head (s a b : string) : (s ++ a = s ++ b)%string -> a = b.
Proof.
  induction s as [ | c s IH]; cbn; intros E; [ exact E | ].
  injection E as E. exact (IH E).
Qed.

Lemma hex_digits_acc_length (fuel : nat) (upper : bool) (n : Z) (acc : string) :
  (String.length acc <= String.length (hex_digits_acc fuel upper n acc))%nat.
Proof.
  revert n acc. induction fuel as [ | fuel IH]; intros n acc; cbn.
  - lia.
  - destruct (n / 16 =? 0); cbn.
    + lia.
    + specialize (IH (n / 16) (String (hex_digit upper (n mod 16)) acc)).
      cbn in IH. lia.
Qed.

Lemma hex_digits_acc_length_S (fuel : nat) (upper : bool) (n : Z) (acc : string) :
  (S (String.length acc)
   <= String.length (hex_digits_acc (S fuel) upper n acc))%nat.
Proof.
  cbn. destruct (n / 16 =? 0); cbn.
  - lia.
  - pose proof (hex_digits_acc_length fuel upper (n / 16)
                  (String (hex_digit upper (n mod 16)) acc)) as H.
    cbn in H. exact H.
Qed.

Lemma hex_digits_acc_step (fuel : nat) (upper : bool) (n : Z) (acc : string) :
  (n / 16 =? 0) = false ->
  hex_digits_acc (S fuel) upper n acc
  = hex_digits_acc fuel upper (n / 16) (String (hex_digit upper (n mod 16)) acc).
Proof. intros E. cbn [hex_digits_acc]. rewrite E. reflexivity. Qed.

Lemma hex_digits_long (upper : bool) (n : Z) :
  256 <= n -> (3 <= String.length (hex_digits upper n))%nat.
Proof.
  intros Hn. unfold hex_digits.
  pose proof (Z.log2_le_mono 256 n Hn) as Hlog.
  change (Z.log2 256) with 8 in Hlog.
  destruct (Z.to_nat (Z.log2 n)) as [ | [ | k]] eqn:E; try lia.
  assert ((n / 16 =? 0) = false) as E0.
  { apply Z.eqb_neq.
    pose proof (Z.div_le_mono 256 n 16 ltac:(lia) Hn) as H.
    change (256 / 16) with 16 in H. lia. }
  assert ((n / 16 / 16 =? 0) = false) as E1.
  { apply Z.eqb_neq. rewrite Z.div_div by lia.
    pose proof (Z.div_le_mono 256 n (16 * 16) ltac:(lia) Hn) as H.
    change (256 / (16 * 16)) with 1 in H. lia. }
  rewrite (hex_digits_acc_step _ upper n _ E0).
  rewrite (hex_digits_acc_step _ upper (n / 16) _ E1).
  eapply Nat.le_trans; [ | apply hex_digits_acc_length_S ].
  cbn [String.length]. lia.
Qed.

Lemma format_0_2X_byte (p : Z) : 0 <= p <= 255 -> format_0_2X p = two_hex p.
Proof.
  intros Hp.
  assert (forallb (fun q => String.eqb (format_0_2X q) (two_hex q)) byte_range
          = true) as Hall by (vm_compute; reflexivity).
  rewrite forallb_forall in Hall.
  apply String.eqb_eq, Hall, byte_range_complete.
  unfold byteb. apply andb_true_intro. split; [ apply Z.leb_le | apply Z.ltb_lt ]; lia.
Qed.

Lemma two_hex_injective (p q : Z) :
  0 <= p <= 255 -> 0 <= q <= 255 -> two_hex p = two_hex q -> p = q.
Proof.
  intros Hp Hq E.
  assert (forallb
            (fun a => forallb
                        (fun b => implb (String.eqb (two_hex a) (two_hex b))
                                    (a =? b))
                        byte_range)
            byte_range = true) as Hall by (vm_compute; reflexivity).
  assert (forall x, 0 <= x <= 255 -> In x byte_range) as Hin.
  { intros x Hx. apply byte_range_complete. unfold byteb.
    apply andb_true_intro. split; [ apply Z.leb_le | apply Z.ltb_lt ]; lia. }
  rewrite forallb_forall in Hall. specialize (Hall p (Hin p Hp)).
  rewrite forallb_forall in Hall. specialize (Hall q (Hin q Hq)).
  apply String.eqb_eq in E. rewrite E in Hall. cbn in Hall.
  apply Z.eqb_eq. exact Hall.
Qed.

Lemma two_hex_no_sign (p : Z) (s : string) :
  0 <= p <= 255 -> two_hex p <> String "-" s.
Proof.
  intros Hp E. unfold two_hex in E. injection E as E _.
  assert (0 <= p / 16 < 16) as Hd
    by (split; [ apply Z.div_pos | apply Z.div_lt_upper_bound ]; lia).
  assert (forallb (fun d => negb (Ascii.eqb (hex_digit true d) "-"))
            (map Z.of_nat (seq 0 16)) = true) as Hall by (vm_compute; reflexivity).
  rewrite forallb_forall in Hall.
  assert (In (p / 16) (map Z.of_nat (seq 0 16))) as Hin.
  { apply in_map_iff. exists (Z.to_nat (p / 16)). split; [ lia | ].
    apply in_seq. lia. }
  specialize (Hall _ Hin). rewrite E, Ascii.eqb_refl in Hall. discriminate.
Qed.

(** The key carries a byte of 0..100 only if the position sent is one. *)
Lemma set_position_key_byte (self : SwitchbotCurtain) (position p : Z) :
  0 <= p <= 100 ->
  set_position_key self position = (POSITION_KEY ++ two_hex p)%string ->
  sent_position self position = p.
Proof.
  intros Hp E. unfold set_position_key in E. fold (sent_position self position) in E.
  set (t := sent_position self position) in *.
  assert (format_0_2X t = two_hex p) as E'.
  { exact (string_app_inv_head POSITION_KEY _ _ E). }
  clear E.
  destruct (Z.ltb_spec t 0) as [Hneg | Hpos].
  - exfalso. unfold format_0_2X in E'.
    rewrite (proj2 (Z.ltb_lt t 0) Hneg) in E'.
    cbn [String.append] in E'. symmetry in E'.
    exact (two_hex_no_sign p _ ltac:(lia) E').
  - destruct (Z.le_gt_cases t 255) as [Hbyte | Hbig].
    + rewrite format_0_2X_byte in E' by lia.
      apply two_hex_injective; [ lia | lia | exact E' ].
    + exfalso. unfold format_0_2X in E'.
      rewrite (proj2 (Z.ltb_ge t 0) Hpos) in E'.
      pose proof (hex_digits_long true t ltac:(lia)) as Hlen.
      apply (f_equal String.length) in E'.
      unfold zero_pad in E'. rewrite string_length_app in E'.
      cbn [two_hex String.length] in E'. lia.
Qed.

(** C4, amended.  The key of [set_position] is [POSITION_KEY] followed by
    the two hexadecimal digits of a byte [p] of 0x00..0x64 exactly when the
    position lies in [0, 100] and [p] is that position, or 100 minus it in
    reverse mode.  A position outside [0, 100] is formatted as it is and
    gives no such key. *)
Theorem set_position_key_in_range
    (self : SwitchbotCurtain) (position p : Z) :
  0 <= p <= 100 ->
  set_position_key self position = (POSITION_KEY ++ two_hex p)%string
  <-> 0 <= position <= 100 /\ sent_position self position = p.
Proof.
  intros Hp. split.
  - intros E.
    pose proof (set_position_key_byte self position p Hp E) as Hsent.
    split; [ | exact Hsent ].
    unfold sent_position in Hsent. destruct (_reverse self); lia.
  - intros [Hpos <-].
    unfold set_position_key. fold (sent_position self position).
    rewrite format_0_2X_byte by lia. reflexivity.
Qed.

Lemma set_position_key_in_range_witness :
  set_position_key plain_curtain 50 = (POSITION_KEY ++ two_hex 50)%string
  <-> 0 <= 50 <= 100 /\ sent_position plain_curtain 50 = 50.
Proof.
  apply (set_position_key_in_range plain_curtain 50 50).
  lia.
Defined.

(** C4, as stated, fails: with reverse mode off, position 300 is sent as the
    three digits "12C", which is no two-digit byte of 0x00..0x64. *)
Lemma set_position_does_not_clamp :
  SwitchbotCurtain__init__ "AA:BB:CC:DD:EE:FF" None 0
    {| kw_scan_timeout := None; kw_retry_count := None;
       kw_inverse_mode := None; kw_reverse_mode := Some false |}
  = Return plain_curtain /\
  set_position_key plain_curtain 300 = "570F450105ff12C" /\
  ~ (exists p, 0 <= p <= 100 /\
               set_position_key plain_curtain 300
               = (POSITION_KEY ++ two_hex p)%string).
Proof.
  split; [ reflexivity | ]. split; [ reflexivity | ].
  intros (p & Hp & E).
  apply (f_equal String.length) in E. cbn in E. discriminate.
Qed.

(** ** The cached state of a Bot *)

(** C10. A [Switchbot] built with [inverse_mode=True] has [_inverse] true,
    one built without it has [_inverse] false, and both start with an empty
    cache.  [is_on] makes no call on the link; it returns [None] while the
    cache is empty; on a cached Bot record it returns the stored [isOn],
    negated when [_inverse] is set. *)
Theorem is_on_reads_cache
    (mac : string) (password : option string) (interface : Z) (kw : kwargs)
    (self : Switchbot) (entry : device_entry) (d : bot_data) (w : World) :
  Switchbot__init__ mac password interface kw = Return self ->
  data entry = DataBot d ->
  _inverse self = pop (kw_inverse_mode kw) false /\
  is_on self w = (w, Return None) /\
  is_on (set_cache self None) w = (w, Return None) /\
  is_on (set_cache self (Some entry)) w
  = (w, Return (Some (if pop (kw_inverse_mode kw) false
                      then negb (isOn d) else isOn d))).
Proof.
  intros Hinit Hdata.
  unfold Switchbot__init__ in Hinit.
  destruct (SwitchbotDevice__init__ mac password interface kw) as [base | e] eqn:Hbase;
    cbn [obind] in Hinit; [ | discriminate ].
  injection Hinit as <-.
  assert (_switchbot_device_data base = None) as Hcache.
  { unfold SwitchbotDevice__init__ in Hbase.
    destruct password as [p | ]; [ destruct (String.eqb p "") | ];
      try (destruct (encode_ascii p); cbn [obind] in Hbase; [ | discriminate ]);
      cbn [obind] in Hbase; injection Hbase as <-; reflexivity. }
  cbn [_inverse]. split; [ reflexivity | ].
  unfold is_on. cbn [bot_device set_cache _switchbot_device_data _inverse].
  rewrite Hcache, Hdata.
  split; [ reflexivity | ]. split; [ reflexivity | ].
  destruct (pop (kw_inverse_mode kw) false); reflexivity.
Qed.

Lemma is_on_reads_cache_witness :
  exists self,
    Switchbot__init__ "AA:BB:CC:DD:EE:FF" None 0
      {| kw_scan_timeout := None; kw_retry_count := None;
         kw_inverse_mode := Some true; kw_reverse_mode := None |}
    = Return self /\
    _inverse self = true /\
    is_on self (fresh (flaky_link 0 [1]))
    = (fresh (flaky_link 0 [1]), Return None) /\
    is_on (set_cache self None) (fresh (flaky_link 0 [1]))
    = (fresh (flaky_link 0 [1]), Return None) /\
    is_on (set_cache self (Some (bot_entry true))) (fresh (flaky_link 0 [1]))
    = (fresh (flaky_link 0 [1]), Return (Some false)).
Proof.
  eexists. split; [ reflexivity | ].
  eapply (is_on_reads_cache "AA:BB:CC:DD:EE:FF" None 0
            {| kw_scan_timeout := None; kw_retry_count := None;
               kw_inverse_mode := Some true; kw_reverse_mode := None |}
            _ (bot_entry true)
            {| switchMode := true; isOn := true; bot_battery := 50 |}
            (fresh (flaky_link 0 [1]))).
  - reflexivity.
  - reflexivity.
Defined.

(* ================================================================== *)
(** * Properties of the password wrapping *)
(* ================================================================== *)

Lemma commandkey_no_password (self : SwitchbotDevice) (key : string) :
  _password_encoded self = None -> _commandkey self key = Return key.
Proof. intros H. unfold _commandkey. rewrite H. reflexivity. Qed.

Lemma string_get_lt (n : nat) (s : string) :
  (n < String.length s)%nat -> exists c, String.get n s = Some c.
Proof.
  revert n. induction s as [ | c s IH]; intros n Hn; cbn in Hn; [ lia | ].
  destruct n as [ | n]; cbn.
  - exists c. reflexivity.
  - apply IH. lia.
Qed.

Lemma commandkey_password (self : SwitchbotDevice) (key token : string) :
  _password_encoded self = Some token ->
  (4 <= String.length key)%nat ->
  exists key_action,
    String.get 3 key = Some key_action /\
    _commandkey self key
    = Return ("571" ++ String key_action "" ++ token ++ string_drop 4 key)%string.
Proof.
  intros H Hlen. destruct (string_get_lt 3 key ltac:(lia)) as [c Hc].
  exists c. split; [ exact Hc | ].
  unfold _commandkey. rewrite H, Hc. reflexivity.
Qed.

Lemma init_password_encoded
    (mac : string) (password : option string) (interface : Z) (kw : kwargs)
    (self : SwitchbotDevice) :
  SwitchbotDevice__init__ mac password interface kw = Return self ->
  _password_encoded self
  = match password with
    | None => None
    | Some p =>
        if String.eqb p "" then None
        else match encode_ascii p with
             | Return b => Some (format_x (Z.land (crc32 b) 0xFFFFFFFF))
             | Raise _ => None
             end
    end.
Proof.
  unfold SwitchbotDevice__init__. intros H.
  destruct password as [p | ]; [ destruct (String.eqb p "") | ];
    try (destruct (encode_ascii p); cbn [obind] in H; [ | discriminate ]);
    cbn [obind] in H; injection H as <-; reflexivity.
Qed.

(** C1, on the code.  With the password "0000" the checksum token is
    "c9bc472": the CRC-32 is 0x0c9bc472 and ["%x"] drops the leading zero, so
    the token has seven digits, not eight.  The wrapped ON key then has an
    odd number of digits, which [bytearray.fromhex] refuses. *)
Theorem password_token_seven_digits :
  exists self,
    SwitchbotDevice__init__ "AA:BB:CC:DD:EE:FF" (Some "0000") 0 no_kwargs
    = Return self /\
    crc32 [48; 48; 48; 48] = 0x0c9bc472 /\
    _password_encoded self = Some "c9bc472" /\
    _commandkey self ON_KEY = Return "5711c9bc47201" /\
    fromhex "5711c9bc47201" = Raise ValueError.
Proof.
  eexists. split; [ vm_compute; reflexivity | ].
  repeat split; vm_compute; reflexivity.
Qed.

(* ================================================================== *)
(** * Checks of the formatting functions *)
(* ================================================================== *)

Example crc32_check_value :
  format_x (crc32 [49; 50; 51; 52; 53; 54; 55; 56; 57]) = "cbf43926".
Proof. vm_compute. reflexivity. Qed.

Example format_samples :
  format_0_2X 5 = "05" /\ format_0_2X 100 = "64" /\ format_0_2X 300 = "12C" /\
  format_0_2X (-5) = "-05" /\ format_02x 100 = "64" /\ format_02x (-5) = "-5" /\
  format_x 0 = "0" /\ format_x 255 = "ff".
Proof. vm_compute. repeat split. Qed.

(* ================================================================== *)
(** * More on the decoders: short payloads and field ranges *)
(* ================================================================== *)

Lemma in_range_land_ones (b n : Z) :
  0 <= n -> in_range 0 (Z.ones n) (Z.land b (Z.ones n)) = true.
Proof.
  intros Hn. unfold in_range. rewrite Z.land_ones by exact Hn.
  pose proof (Z.mod_pos_bound b (2 ^ n) ltac:(apply Z.pow_pos_nonneg; lia)) as H.
  rewrite Z.ones_equiv.
  apply andb_true_intro. split; [ apply Z.leb_le | apply Z.leb_le ]; lia.
Qed.

Lemma in_range_land_127 (b : Z) : in_range 0 127 (Z.land b 127) = true.
Proof. exact (in_range_land_ones b 7 ltac:(lia)). Qed.

Lemma in_range_land_15 (b : Z) : in_range 0 15 (Z.land b 15) = true.
Proof. exact (in_range_land_ones b 4 ltac:(lia)). Qed.

Lemma in_range_land_7 (b : Z) : in_range 0 7 (Z.land b 7) = true.
Proof. exact (in_range_land_ones b 3 ltac:(lia)). Qed.

Lemma in_range_clamp (reverse : bool) (raw : Z) :
  in_range 0 100
    (if reverse then 100 - Z.max (Z.min raw 100) 0 else Z.max (Z.min raw 100) 0)
  = true.
Proof.
  unfold in_range. apply andb_true_intro.
  destruct reverse; split; apply Z.leb_le; lia.
Qed.

(** X1. [_process_wocurtain] returns exactly on payloads of 5 bytes or more
    and raises [IndexError] on shorter ones; what it returns has battery in
    0..127, position in 0..100, light level in 0..15 and device chain in
    0..7, whatever the bytes are. *)
Theorem curtain_decode_total (data : bytes) (reverse : bool) :
  if (5 <=? List.length data)%nat
  then exists d,
      _process_wocurtain data reverse = Return d /\
      in_range 0 127 (curtain_battery d) = true /\
      in_range 0 100 (position d) = true /\
      in_range 0 15 (lightLevel d) = true /\
      in_range 0 7 (deviceChain d) = true
  else _process_wocurtain data reverse = Raise IndexError.
Proof.
  destruct data as [ | b0 [ | b1 [ | b2 [ | b3 [ | b4 rest]]]]];
    try reflexivity.
  change ((5 <=? List.length (b0 :: b1 :: b2 :: b3 :: b4 :: rest))%nat) with true.
  cbv iota. eexists. split; [ reflexivity | ].
  cbn [curtain_battery position lightLevel deviceChain].
  split; [ apply in_range_land_127 | ].
  split; [ apply in_range_clamp | ].
  split; [ apply in_range_land_15 | apply in_range_land_7 ].
Qed.

(** X2. [_process_wohand] returns exactly on payloads of 3 bytes or more and
    [_process_wosensorth] exactly on payloads of 6 bytes or more; on shorter
    ones they raise [IndexError].  The batteries and the humidity they
    return lie in 0..127. *)
Theorem bot_and_sensor_decode_total (data : bytes) :
  (if (3 <=? List.length data)%nat
   then exists d,
       _process_wohand data = Return d /\
       in_range 0 127 (bot_battery d) = true
   else _process_wohand data = Raise IndexError) /\
  (if (6 <=? List.length data)%nat
   then exists d,
       _process_wosensorth data = Return d /\
       in_range 0 127 (humidity d) = true /\
       in_range 0 127 (th_battery d) = true
   else _process_wosensorth data = Raise IndexError).
Proof.
  split.
  - destruct data as [ | b0 [ | b1 [ | b2 rest]]]; try reflexivity.
    + unfold _process_wohand. cbn [getitem nth_error obind].
      destruct (truthy (Z.land b1 128)); reflexivity.
    + change ((3 <=? List.length (b0 :: b1 :: b2 :: rest))%nat) with true.
      cbv iota. unfold _process_wohand. cbn [getitem nth_error obind].
      destruct (truthy (Z.land b1 128)); cbn [obind];
        (eexists; split; [ reflexivity | apply in_range_land_127 ]).
  - destruct data as [ | b0 [ | b1 [ | b2 [ | b3 [ | b4 [ | b5 rest]]]]]];
      try reflexivity.
    change ((6 <=? List.length (b0 :: b1 :: b2 :: b3 :: b4 :: b5 :: rest))%nat)
      with true.
    cbv iota. eexists. split; [ reflexivity | ].
    cbn [humidity th_battery].
    split; apply in_range_land_127.
Qed.

Lemma all_byte_pairs_spec (P : Z -> Z -> bool) (a b : Z) :
  all_byte_pairs P = true -> byteb a = true -> byteb b = true -> P a b = true.
Proof.
  unfold all_byte_pairs. intros Hall Ha Hb.
  rewrite forallb_forall in Hall.
  specialize (Hall a (byte_range_complete a Ha)).
  rewrite forallb_forall in Hall.
  exact (Hall b (byte_range_complete b Hb)).
Qed.

Lemma sensor_range_check_all : all_byte_pairs sensor_range_check = true.
Proof. vm_compute. reflexivity. Qed.

(** X3. For a SensorTH payload of at least 6 bytes, the Celsius value lies
    in [-152.5, 152.5] and the Fahrenheit value in [-242.5, 306.5]; and the
    two agree on the freezing point: Fahrenheit is at most 32 exactly when
    Celsius is at most 0, and below 32 exactly when Celsius is below 0. *)
Theorem sensor_temperature_range (data : bytes) :
  (6 <= List.length data)%nat ->
  wf_bytes data = true ->
  exists d,
    _process_wosensorth data = Return d /\
    PrimFloat.leb (-152.5)%float (temp_c d) = true /\
    PrimFloat.leb (temp_c d) 152.5%float = true /\
    PrimFloat.leb (-242.5)%float (temp_f d) = true /\
    PrimFloat.leb (temp_f d) 306.5%float = true /\
    PrimFloat.leb (temp_f d) 32%float = PrimFloat.leb (temp_c d) 0%float /\
    PrimFloat.ltb (temp_f d) 32%float = PrimFloat.ltb (temp_c d) 0%float.
Proof.
  intros Hlen Hwf.
  destruct (getitem_lt data 2) as (b2 & _ & G2); [ lia | ].
  destruct (getitem_lt data 3) as (b3 & N3 & G3); [ lia | ].
  destruct (getitem_lt data 4) as (b4 & N4 & G4); [ lia | ].
  destruct (getitem_lt data 5) as (b5 & _ & G5); [ lia | ].
  pose proof (all_byte_pairs_spec sensor_range_check b3 b4
                sensor_range_check_all
                (wf_bytes_nth data 3 b3 Hwf N3) (wf_bytes_nth data 4 b4 Hwf N4))
    as Hcheck.
  unfold sensor_range_check in Hcheck.
  repeat (apply andb_prop in Hcheck as [Hcheck ?]).
  eexists. split.
  - unfold _process_wosensorth. rewrite G4, G3, G5, G2. cbn [obind]. reflexivity.
  - cbn [temp_c temp_f].
    fold (celsius_of b3 b4). fold (fahrenheit_of b3 b4).
    repeat split; try assumption;
      symmetry; apply Bool.eqb_prop; assumption.
Qed.

Lemma sensor_temperature_range_witness :
  exists d,
    _process_wosensorth [84; 0; 100; 5; 150; 40] = Return d /\
    PrimFloat.leb (-152.5)%float (temp_c d) = true /\
    PrimFloat.leb (temp_c d) 152.5%float = true /\
    PrimFloat.leb (-242.5)%float (temp_f d) = true /\
    PrimFloat.leb (temp_f d) 306.5%float = true /\
    PrimFloat.leb (temp_f d) 32%float = PrimFloat.leb (temp_c d) 0%float /\
    PrimFloat.ltb (temp_f d) 32%float = PrimFloat.ltb (temp_c d) 0%float.
Proof.
  apply (sensor_temperature_range [84; 0; 100; 5; 150; 40]).
  - simpl. lia.
  - reflexivity.
Defined.

(* ================================================================== *)
(** * More on the scan: what [_data] holds *)
(* ================================================================== *)

Ltac callback_cases :=
  repeat match goal with
         | |- context [if Ascii.eqb ?a ?b then _ else _] =>
             destruct (Ascii.eqb a b) eqn:?
         | |- context [obind ?o _] => destruct o eqn:?; cbn [obind]
         | |- context [match ?o with Return _ => _ | Raise _ => _ end] =>
             destruct o eqn:?
         end.

(** A call of [detection_callback] either leaves [_data] as it is or files
    one record, which depends on the advertisement only. *)
Lemma callback_data (self : GetSwitchbotDevices) (device : BLEDevice)
    (adv : AdvertisementData) :
  _data (fst (detection_callback self device adv))
  = match stored_entry device adv with
    | Some e => dict_set (device_key device) e (_data self)
    | None => _data self
    end.
Proof.
  unfold stored_entry, detection_callback, device_key.
  destruct (dict_values (adv_service_data adv)) as [ | sd ?]; [ reflexivity | ].
  destruct (getitem sd 0) as [b0 | e]; [ | reflexivity ].
  callback_cases; cbn; rewrite String.eqb_refl; reflexivity.
Qed.

Lemma discover_step (self : GetSwitchbotDevices)
    (adv : BLEDevice * AdvertisementData)
    (observed : list (BLEDevice * AdvertisementData)) :
  discover self (adv :: observed)
  = discover (fst (detection_callback self (fst adv) (snd adv))) observed.
Proof. reflexivity. Qed.

Lemma discover_app (self : GetSwitchbotDevices)
    (before after : list (BLEDevice * AdvertisementData)) :
  discover self (before ++ after) = discover (fst (discover self before)) after.
Proof.
  unfold discover. cbn [fst]. rewrite fold_left_app. reflexivity.
Qed.

Lemma discover_data (self : GetSwitchbotDevices)
    (observed : list (BLEDevice * AdvertisementData)) :
  snd (discover self observed) = _data (fst (discover self observed)).
Proof. reflexivity. Qed.

(** Advertisements that file nothing under [key] leave its record alone. *)
Lemma discover_other_keys (key : string)
    (observed : list (BLEDevice * AdvertisementData))
    (self : GetSwitchbotDevices) :
  (forall other, In other observed ->
     device_key (fst other) = key ->
     stored_entry (fst other) (snd other) = None) ->
  dict_get key (snd (discover self observed)) = dict_get key (_data self).
Proof.
  revert self. induction observed as [ | adv observed IH]; intros self Hother.
  - reflexivity.
  - rewrite discover_step, IH.
    + rewrite callback_data.
      destruct (stored_entry (fst adv) (snd adv)) as [e | ] eqn:E;
        [ | reflexivity ].
      apply dict_get_set_other. intros Hkey.
      rewrite (Hother adv (or_introl eq_refl) (eq_sym Hkey)) in E.
      discriminate.
    + intros other Hin. apply Hother. right. exact Hin.
Qed.

(** X4. Last write wins in what a scan returns: if the advertisement
    [(device, adv)] files the record [e], and no later advertisement of the
    scan files a record under the same key, then the dict returned by
    [discover] holds [e] under that key, whatever was seen or stored
    before. *)
Theorem discover_keeps_latest
    (self : GetSwitchbotDevices)
    (before after : list (BLEDevice * AdvertisementData))
    (device : BLEDevice) (adv : AdvertisementData) (e : device_entry) :
  stored_entry device adv = Some e ->
  (forall other, In other after ->
     device_key (fst other) = device_key device ->
     stored_entry (fst other) (snd other) = None) ->
  dict_get (device_key device)
    (snd (discover self (before ++ (device, adv) :: after)))
  = Some e.
Proof.
  intros He Hafter.
  rewrite discover_app, discover_step.
  rewrite (discover_other_keys _ after _ Hafter).
  cbn [fst snd]. rewrite callback_data, He.
  apply dict_get_set_same.
Qed.

Lemma discover_keeps_latest_witness :
  dict_get (device_key (fst bot_advert))
    (snd (discover (GetSwitchbotDevices__init__ 0)
            ([curtain_advert; bot_advert]
             ++ (fst bot_advert,
                 {| adv_service_data := [("uuid", [0x48; 0x80; 0x5F])] |})
             :: [curtain_advert])))
  = Some {| mac_address := "AA:BB:CC:DD:EE:FF";
            service_data := [0x48; 0x80; 0x5F];
            isEncrypted := false;
            model := "H";
            modelName := Some "WoHand";
            data := DataBot {| switchMode := true;
                               isOn := true;
                               bot_battery := 95 |} |}.
Proof.
  apply (discover_keeps_latest (GetSwitchbotDevices__init__ 0)
           [curtain_advert; bot_advert] [curtain_advert] (fst bot_advert)
           {| adv_service_data := [("uuid", [0x48; 0x80; 0x5F])] |}).
  - reflexivity.
  - intros other [<- | []] Hkey. vm_compute in Hkey. discriminate.
Defined.

(** ** The records of a scan are consistent *)

Lemma stored_entry_ok (device : BLEDevice) (adv : AdvertisementData)
    (e : device_entry) :
  stored_entry device adv = Some e -> entry_ok (device_key device) e = true.
Proof.
  unfold stored_entry, detection_callback, device_key.
  destruct (dict_values (adv_service_data adv)) as [ | sd ?];
    [ discriminate | ].
  destruct sd as [ | b0 rest]; [ discriminate | ].
  cbn [getitem nth_error].
  assert (truthy (Z.land b0 128) = Z.testbit b0 7) as H7
    by (apply (truthy_land_pow2 b0 7); lia).
  callback_cases; cbn; rewrite String.eqb_refl; intros [= <-];
    unfold entry_ok, name_of_model;
    cbn [mac_address service_data model isEncrypted modelName data
         set_modelName set_entry_data];
    rewrite String.eqb_refl, Ascii.eqb_refl, H7, Bool.eqb_reflx;
    repeat match goal with
           | H : Ascii.eqb _ _ = _ |- _ => rewrite H
           end;
    reflexivity.
Qed.

Section DictInvariants.
Context {V : Type}.

Lemma dict_set_keys (k : string) (v : V) (d : dict V) :
  map fst (dict_set k v d)
  = match dict_get k d with
    | Some _ => map fst d
    | None => map fst d ++ [k]
    end.
Proof.
  induction d as [ | [k' v'] d IH]; cbn; [ reflexivity | ].
  destruct (String.eqb_spec k' k) as [-> | Hne]; cbn; [ reflexivity | ].
  rewrite IH. destruct (dict_get k d); reflexivity.
Qed.

Lemma dict_get_None (k : string) (d : dict V) :
  dict_get k d = None -> ~ In k (map fst d).
Proof.
  induction d as [ | [k' v'] d IH]; cbn; [ tauto | ].
  destruct (String.eqb_spec k' k) as [-> | Hne]; [ discriminate | ].
  intros H [E | Hin]; [ exact (Hne E) | exact (IH H Hin) ].
Qed.

Lemma dict_set_NoDup (k : string) (v : V) (d : dict V) :
  NoDup (map fst d) -> NoDup (map fst (dict_set k v d)).
Proof.
  intros Hd. rewrite dict_set_keys.
  destruct (dict_get k d) eqn:E; [ exact Hd | ].
  apply NoDup_app; [ exact Hd | repeat constructor; intros [] | ].
  intros x Hx [<- | []]. exact (dict_get_None k d E Hx).
Qed.

Lemma dict_set_length (k : string) (v : V) (d : dict V) :
  (List.length (dict_set k v d) <= S (List.length d))%nat.
Proof.
  induction d as [ | [k' v'] d IH]; cbn; [ lia | ].
  destruct (String.eqb k' k); cbn; lia.
Qed.

Lemma dict_set_forallb (P : string * V -> bool) (k : string) (v : V)
    (d : dict V) :
  P (k, v) = true -> forallb P d = true -> forallb P (dict_set k v d) = true.
Proof.
  intros Hkv. induction d as [ | [k' v'] d IH]; cbn.
  - intros _. rewrite Hkv. reflexivity.
  - destruct (String.eqb k' k); cbn; intros H;
      apply andb_prop in H as [H1 H2].
    + rewrite Hkv, H2. reflexivity.
    + rewrite H1, (IH H2). reflexivity.
Qed.
End DictInvariants.

(** X5. In the dict a scan returns no key occurs twice, there are at most as
    many records as advertisements seen, and every record is consistent with
    its key: the key is the record's address without colons, the model letter
    is the low 7 bits and the encryption flag bit 7 of the first payload
    byte, the model name is the one of the letter (none for an unknown
    letter), and decoded Bot, Curtain or SensorTH data sit only under the
    letters H, c and T. *)
Theorem discover_records_consistent
    (interface : Z) (observed : list (BLEDevice * AdvertisementData)) :
  let found := snd (discover (GetSwitchbotDevices__init__ interface) observed) in
  NoDup (map fst found) /\
  (List.length found <= List.length observed)%nat /\
  forallb (fun kv => entry_ok (fst kv) (snd kv)) found = true.
Proof.
  cbn zeta.
  assert (forall obs self,
            NoDup (map fst (_data self)) ->
            forallb (fun kv => entry_ok (fst kv) (snd kv)) (_data self) = true ->
            let found := snd (discover self obs) in
            NoDup (map fst found) /\
            (List.length found <= List.length (_data self) + List.length obs)%nat /\
            forallb (fun kv => entry_ok (fst kv) (snd kv)) found = true) as Hgen.
  { induction obs as [ | adv obs IH]; intros self Hnd Hok; cbn zeta.
    - cbn. repeat split; try assumption. lia.
    - rewrite discover_step.
      set (self' := fst (detection_callback self (fst adv) (snd adv))).
      assert (NoDup (map fst (_data self'))
              /\ (List.length (_data self') <= S (List.length (_data self)))%nat
              /\ forallb (fun kv => entry_ok (fst kv) (snd kv)) (_data self')
                 = true) as (Hnd' & Hlen' & Hok').
      { subst self'. rewrite callback_data.
        destruct (stored_entry (fst adv) (snd adv)) as [e | ] eqn:E.
        - split; [ apply dict_set_NoDup; exact Hnd | ].
          split; [ apply dict_set_length | ].
          apply dict_set_forallb; [ | exact Hok ].
          exact (stored_entry_ok _ _ _ E).
        - repeat split; try assumption. lia. }
      destruct (IH self' Hnd' Hok') as (H1 & H2 & H3).
      repeat split; try assumption. cbn [List.length]. lia. }
  destruct (Hgen observed (GetSwitchbotDevices__init__ interface))
    as (H1 & H2 & H3); [ constructor | reflexivity | ].
  repeat split; assumption.
Qed.

(** X6. An advertisement of a known model whose payload is too short for
    its decoder (fewer than 3 bytes for H, 5 for c, 6 for T) makes
    [detection_callback] raise [IndexError], and still files a record: the
    one with the model name and the bare [{"rssi": ...}] data. *)
Theorem detection_callback_short_payload
    (self : GetSwitchbotDevices) (device : BLEDevice) (uuid : string)
    (others : dict bytes) (b0 : Z) (rest : bytes) :
  let letter := ascii_of_nat (Z.to_nat (Z.land b0 127)) in
  let adv := {| adv_service_data := (uuid, b0 :: rest) :: others |} in
  (letter = "H"%char /\ (List.length rest < 2)%nat) \/
  (letter = "c"%char /\ (List.length rest < 4)%nat) \/
  (letter = "T"%char /\ (List.length rest < 5)%nat) ->
  snd (detection_callback self device adv) = Raise IndexError /\
  dict_get (device_key device)
    (_data (fst (detection_callback self device adv)))
  = Some {| mac_address := address device;
            service_data := b0 :: rest;
            isEncrypted := Z.testbit b0 7;
            model := letter;
            modelName := name_of_model letter;
            data := DataRssi (rssi device) |}.
Proof.
  intros letter adv Hshort.
  assert (truthy (Z.land b0 128) = Z.testbit b0 7) as H7
    by (apply (truthy_land_pow2 b0 7); lia).
  unfold detection_callback, device_key. subst adv.
  cbn [adv_service_data dict_values map snd getitem nth_error].
  fold letter. rewrite H7.
  destruct Hshort as [[Hl Hlen] | [[Hl Hlen] | [Hl Hlen]]]; rewrite Hl;
    cbn [Ascii.eqb Bool.eqb name_of_model].
  - assert (_process_wohand (b0 :: rest) = Raise IndexError) as E.
    { destruct rest as [ | b1 [ | b2 rest]]; cbn in Hlen; try lia;
        unfold _process_wohand; cbn [getitem nth_error obind];
        try destruct (truthy (Z.land b1 128)); reflexivity. }
    rewrite E. cbn [obind snd fst _data set__data].
    split; [ reflexivity | ]. rewrite dict_get_set_same. reflexivity.
  - assert (_process_wocurtain (b0 :: rest) true = Raise IndexError) as E.
    { destruct rest as [ | b1 [ | b2 [ | b3 [ | b4 rest]]]]; cbn in Hlen;
        try lia; reflexivity. }
    rewrite E. cbn [obind snd fst _data set__data].
    split; [ reflexivity | ]. rewrite dict_get_set_same. reflexivity.
  - assert (_process_wosensorth (b0 :: rest) = Raise IndexError) as E.
    { destruct rest as [ | b1 [ | b2 [ | b3 [ | b4 [ | b5 rest]]]]];
        cbn in Hlen; try lia; reflexivity. }
    rewrite E. cbn [obind snd fst _data set__data].
    split; [ reflexivity | ]. rewrite dict_get_set_same. reflexivity.
Qed.

Lemma detection_callback_short_payload_witness :
  snd (detection_callback (GetSwitchbotDevices__init__ 0) (fst bot_advert)
         {| adv_service_data := [("uuid", [0x48; 0xC0])] |})
  = Raise IndexError /\
  dict_get (device_key (fst bot_advert))
    (_data (fst (detection_callback (GetSwitchbotDevices__init__ 0)
                   (fst bot_advert)
                   {| adv_service_data := [("uuid", [0x48; 0xC0])] |})))
  = Some {| mac_address := address (fst bot_advert);
            service_data := [0x48; 0xC0];
            isEncrypted := Z.testbit 0x48 7;
            model := ascii_of_nat (Z.to_nat (Z.land 0x48 127));
            modelName := name_of_model (ascii_of_nat (Z.to_nat (Z.land 0x48 127)));
            data := DataRssi (rssi (fst bot_advert)) |}.
Proof.
  apply (detection_callback_short_payload (GetSwitchbotDevices__init__ 0)
           (fst bot_advert) "uuid" [] 0x48 [0xC0]).
  left. split; [ reflexivity | simpl; lia ].
Defined.

(** X7. An advertisement without service data, or whose first service data
    value is empty, makes [detection_callback] raise [IndexError] and leaves
    the scanner as it was; a scan returns what it would return without that
    advertisement. *)
Theorem discover_skips_empty_advertisements
    (self : GetSwitchbotDevices)
    (before after : list (BLEDevice * AdvertisementData))
    (device : BLEDevice) (adv : AdvertisementData) :
  adv_service_data adv = [] \/
  (exists uuid others, adv_service_data adv = (uuid, []) :: others) ->
  detection_callback self device adv = (self, Raise IndexError) /\
  discover self (before ++ (device, adv) :: after)
  = discover self (before ++ after).
Proof.
  intros Hempty.
  assert (forall s, detection_callback s device adv = (s, Raise IndexError))
    as Hcall.
  { intros s. unfold detection_callback.
    destruct Hempty as [-> | (uuid & others & ->)]; reflexivity. }
  split; [ apply Hcall | ].
  rewrite !discover_app, discover_step. cbn [fst snd].
  rewrite Hcall. reflexivity.
Qed.

Lemma discover_skips_empty_advertisements_witness :
  detection_callback (GetSwitchbotDevices__init__ 0) (fst bot_advert)
    {| adv_service_data := [] |}
  = (GetSwitchbotDevices__init__ 0, Raise IndexError) /\
  discover (GetSwitchbotDevices__init__ 0)
    ([curtain_advert] ++ (fst bot_advert, {| adv_service_data := [] |})
                      :: [bot_advert])
  = discover (GetSwitchbotDevices__init__ 0) ([curtain_advert] ++ [bot_advert]).
Proof.
  apply (discover_skips_empty_advertisements (GetSwitchbotDevices__init__ 0)
           [curtain_advert] [bot_advert] (fst bot_advert)
           {| adv_service_data := [] |}).
  left. reflexivity.
Defined.

(* ================================================================== *)
(** * More on command keys and the password token *)
(* ================================================================== *)

Lemma string_drop_length (n : nat) (s : string) :
  String.length (string_drop n s) = (String.length s - n)%nat.
Proof.
  revert s. induction n as [ | n IH]; intros s; cbn.
  - lia.
  - destruct s as [ | c s]; cbn; [ reflexivity | apply IH ].
Qed.

Lemma string_get_ge (n : nat) (s : string) :
  (String.length s <= n)%nat -> String.get n s = None.
Proof.
  revert n. induction s as [ | c s IH]; intros n Hn; cbn; [ reflexivity | ].
  cbn in Hn. destruct n as [ | n]; [ lia | ]. apply IH. lia.
Qed.

(** X8. With a password, [_commandkey] raises [IndexError] on a key of
    fewer than 4 characters, and on any longer key returns a string that is
    longer than the key by the length of the checksum token. *)
Theorem commandkey_wrapped_length
    (self : SwitchbotDevice) (key token : string) :
  _password_encoded self = Some token ->
  if (4 <=? String.length key)%nat
  then exists wrapped,
      _commandkey self key = Return wrapped /\
      String.length wrapped = (String.length key + String.length token)%nat
  else _commandkey self key = Raise IndexError.
Proof.
  intros Htoken.
  destruct (Nat.leb_spec 4 (String.length key)) as [Hlen | Hlen].
  - destruct (commandkey_password self key token Htoken Hlen)
      as (c & _ & E).
    eexists. split; [ exact E | ].
    rewrite !string_length_app, string_drop_length. cbn [String.length]. lia.
  - unfold _commandkey. rewrite Htoken, string_get_ge by lia. reflexivity.
Qed.

Lemma commandkey_wrapped_length_witness :
  exists wrapped,
    _commandkey locked_device ON_KEY = Return wrapped /\
    String.length wrapped
    = (String.length ON_KEY + String.length "c9bc472")%nat.
Proof.
  apply (commandkey_wrapped_length locked_device ON_KEY "c9bc472").
  reflexivity.
Defined.

(** ** The shape of the token *)

Lemma hex_digit_lower (d : Z) :
  0 <= d < 16 -> is_lower_hex (hex_digit false d) = true.
Proof.
  intros Hd.
  assert (forallb (fun x => is_lower_hex (hex_digit false x))
            (map Z.of_nat (seq 0 16)) = true) as Hall
    by (vm_compute; reflexivity).
  rewrite forallb_forall in Hall. apply Hall.
  apply in_map_iff. exists (Z.to_nat d). split; [ lia | ].
  apply in_seq. lia.
Qed.

Lemma hex_digits_acc_lower (fuel : nat) (n : Z) (acc : string) :
  string_forallb is_lower_hex acc = true ->
  string_forallb is_lower_hex (hex_digits_acc fuel false n acc) = true.
Proof.
  revert n acc. induction fuel as [ | fuel IH]; intros n acc Hacc; cbn.
  - exact Hacc.
  - assert (string_forallb is_lower_hex
              (String (hex_digit false (n mod 16)) acc) = true) as Hacc'.
    { cbn. rewrite Hacc, hex_digit_lower; [ reflexivity | ].
      apply Z.mod_pos_bound. lia. }
    destruct (n / 16 =? 0); [ exact Hacc' | apply IH; exact Hacc' ].
Qed.

Lemma hex_digits_acc_length_le (fuel : nat) (upper : bool) :
  forall (k : nat) (n : Z) (acc : string),
    (1 <= k)%nat -> 0 <= n < 16 ^ Z.of_nat k ->
    (String.length (hex_digits_acc fuel upper n acc)
     <= String.length acc + k)%nat.
Proof.
  induction fuel as [ | fuel IH]; intros k n acc Hk Hn; cbn.
  - lia.
  - destruct (Z.eqb_spec (n / 16) 0) as [E | E]; cbn.
    + lia.
    + destruct k as [ | k]; [ lia | ].
      rewrite Nat2Z.inj_succ, Z.pow_succ_r in Hn by lia.
      assert (0 <= n / 16 < 16 ^ Z.of_nat k) as Hdiv.
      { split; [ apply Z.div_pos; lia | apply Z.div_lt_upper_bound; lia ]. }
      destruct k as [ | k].
      { cbn in Hdiv. lia. }
      specialize (IH (S k) (n / 16)
                    (String (hex_digit upper (n mod 16)) acc)
                    ltac:(lia) Hdiv).
      cbn [String.length] in IH. lia.
Qed.

Lemma format_x_shape (n : Z) :
  0 <= n < 2 ^ 32 ->
  (1 <= String.length (format_x n) <= 8)%nat /\
  string_forallb is_lower_hex (format_x n) = true.
Proof.
  intros Hn. unfold format_x.
  rewrite (proj2 (Z.ltb_ge n 0)) by lia.
  unfold hex_digits. split; [ split | ].
  - pose proof (hex_digits_acc_length_S (Z.to_nat (Z.log2 n)) false n "") as H.
    cbn [String.length] in H. exact H.
  - pose proof (hex_digits_acc_length_le (S (Z.to_nat (Z.log2 n))) false 8 n ""
                  ltac:(lia)) as H.
    cbn [String.length] in H. apply H.
    change (16 ^ Z.of_nat 8) with (2 ^ 32). exact Hn.
  - apply hex_digits_acc_lower. reflexivity.
Qed.

Lemma land_32_range (n : Z) : 0 <= Z.land n 0xFFFFFFFF < 2 ^ 32.
Proof.
  change 0xFFFFFFFF with (Z.ones 32). rewrite Z.land_ones by lia.
  apply Z.mod_pos_bound. lia.
Qed.

(** X9. An object built by [SwitchbotDevice.__init__] has no token exactly
    when the password is absent or empty; otherwise its token is made of 1
    to 8 characters, each a digit or a letter a-f. *)
Theorem password_token_shape
    (mac : string) (password : option string) (interface : Z) (kw : kwargs)
    (self : SwitchbotDevice) :
  SwitchbotDevice__init__ mac password interface kw = Return self ->
  match _password_encoded self with
  | None => password = None \/ password = Some ""
  | Some token =>
      (exists p, password = Some p /\ p <> "") /\
      (1 <= String.length token <= 8)%nat /\
      string_forallb is_lower_hex token = true
  end.
Proof.
  intros Hinit.
  rewrite (init_password_encoded _ _ _ _ _ Hinit).
  unfold SwitchbotDevice__init__ in Hinit.
  destruct password as [p | ]; [ | left; reflexivity ].
  destruct (String.eqb_spec p "") as [-> | Hne];
    [ right; reflexivity | ].
  destruct (encode_ascii p) as [b | e]; [ | discriminate ].
  split; [ exists p; split; [ reflexivity | exact Hne ] | ].
  apply format_x_shape, land_32_range.
Qed.

Lemma password_token_shape_witness :
  match _password_encoded locked_device with
  | None => Some "0000" = None \/ Some "0000" = Some ""
  | Some token =>
      (exists p, Some "0000" = Some p /\ p <> "") /\
      (1 <= String.length token <= 8)%nat /\
      string_forallb is_lower_hex token = true
  end.
Proof.
  apply (password_token_shape "AA:BB:CC:DD:EE:FF" (Some "0000") 0 no_kwargs
           locked_device).
  vm_compute. reflexivity.
Defined.

Lemma encode_ascii_total (p : string) :
  if string_forallb is_ascii p
  then exists b, encode_ascii p = Return b
  else encode_ascii p = Raise UnicodeEncodeError.
Proof.
  induction p as [ | c p IH]; cbn [string_forallb encode_ascii].
  - exists []. reflexivity.
  - unfold is_ascii at 1.
    destruct (Nat.ltb_spec (nat_of_ascii c) 128) as [Hc | Hc].
    + rewrite (proj2 (Z.ltb_lt (Z.of_nat (nat_of_ascii c)) 128)) by lia.
      cbn [andb]. revert IH.
      destruct (string_forallb is_ascii p); intros IH.
      * destruct IH as [b ->]. eexists. reflexivity.
      * rewrite IH. reflexivity.
    + rewrite (proj2 (Z.ltb_ge (Z.of_nat (nat_of_ascii c)) 128)) by lia.
      reflexivity.
Qed.

(** X10. The three constructors raise [UnicodeEncodeError] exactly when the
    password holds a character that is not ASCII; on every other password,
    and without one, they return an object. *)
Theorem constructors_reject_non_ascii_password
    (mac : string) (password : option string) (interface : Z) (kw : kwargs) :
  let accepted :=
    match password with
    | Some p => string_forallb is_ascii p
    | None => true
    end in
  if accepted
  then (exists self, SwitchbotDevice__init__ mac password interface kw
                     = Return self) /\
       (exists bot, Switchbot__init__ mac password interface kw = Return bot) /\
       (exists curtain, SwitchbotCurtain__init__ mac password interface kw
                        = Return curtain)
  else SwitchbotDevice__init__ mac password interface kw
       = Raise UnicodeEncodeError /\
       Switchbot__init__ mac password interface kw = Raise UnicodeEncodeError /\
       SwitchbotCurtain__init__ mac password interface kw
       = Raise UnicodeEncodeError.
Proof.
  cbn zeta.
  unfold Switchbot__init__, SwitchbotCurtain__init__, SwitchbotDevice__init__.
  destruct password as [p | ].
  - pose proof (encode_ascii_total p) as Henc.
    destruct (string_forallb is_ascii p).
    + destruct Henc as [b ->].
      destruct (String.eqb p ""); cbn [obind];
        (split; [ | split ]); eexists; reflexivity.
    + rewrite Henc.
      destruct (String.eqb_spec p "") as [-> | _]; [ discriminate | ].
      cbn [obind]. repeat split.
  - cbn [obind]. (split; [ | split ]); eexists; reflexivity.
Qed.

(** ** Keys and [bytearray.fromhex] *)




Lemma bytes_eqb_eq (a b : bytes) : bytes_eqb a b = true -> a = b.
Proof.
  unfold bytes_eqb. revert b.
  induction a as [ | x a IH]; intros [ | y b]; cbn; try discriminate.
  - reflexivity.
  - intros H. apply andb_prop in H as [Hlen H].
    apply andb_prop in H as [Hxy H].
    apply Z.eqb_eq in Hxy. subst y. f_equal.
    apply IH. rewrite Hlen, H. reflexivity.
Qed.

Lemma returns_bytes_eq (o : outcome bytes) (b : bytes) :
  returns_bytes o b = true -> o = Return b.
Proof.
  destruct o as [a | e]; cbn; [ | discriminate ].
  intros H. f_equal. apply bytes_eqb_eq. exact H.
Qed.

Lemma in_byte_range (p : Z) : 0 <= p <= 255 -> In p byte_range.
Proof.
  intros Hp. apply byte_range_complete. unfold byteb.
  apply andb_true_intro. split; [ apply Z.leb_le | apply Z.ltb_lt ]; lia.
Qed.

Lemma fromhex_length (s : string) (b : bytes) :
  fromhex s = Return b -> String.length s = (2 * List.length b)%nat.
Proof.
  assert (forall n s b, (String.length s <= n)%nat -> fromhex s = Return b ->
            String.length s = (2 * List.length b)%nat) as Hgen.
  { induction n as [ | n IH]; intros t c Hlen E.
    - destruct t; [ | cbn in Hlen; lia ]. cbn in E. injection E as <-.
      reflexivity.
    - destruct t as [ | x [ | y t]]; cbn [fromhex] in E.
      + injection E as <-. reflexivity.
      + discriminate.
      + destruct (hex_value x); [ | discriminate ].
        destruct (hex_value y); [ | discriminate ].
        destruct (fromhex t) as [r | ] eqn:Et; [ | discriminate ].
        cbn [obind] in E. injection E as <-.
        cbn [String.length List.length].
        rewrite (IH t r); [ lia | cbn in Hlen; lia | exact Et ]. }
  exact (Hgen (String.length s) s b (le_n _)).
Qed.

(** [fromhex] reads a string pair by pair, so it reads a prefix of complete
    pairs on its own. *)
Lemma fromhex_app (a s : string) (x : bytes) :
  fromhex a = Return x ->
  fromhex (a ++ s) = obind (fromhex s) (fun r => Return (x ++ r)).
Proof.
  assert (forall n a x, (String.length a <= n)%nat -> fromhex a = Return x ->
            fromhex (a ++ s) = obind (fromhex s) (fun r => Return (x ++ r)))
    as Hgen.
  { induction n as [ | n IH]; intros t y Hlen E.
    - destruct t; [ | cbn in Hlen; lia ]. cbn in E. injection E as <-.
      cbn. destruct (fromhex s); reflexivity.
    - destruct t as [ | h [ | l t]]; cbn [fromhex] in E.
      + injection E as <-. cbn. destruct (fromhex s); reflexivity.
      + discriminate.
      + cbn [String.append fromhex].
        destruct (hex_value h); [ | discriminate ].
        destruct (hex_value l); [ | discriminate ].
        destruct (fromhex t) as [r | ] eqn:Et; [ | discriminate ].
        cbn [obind] in E. injection E as <-.
        rewrite (IH t r); [ | cbn in Hlen; lia | exact Et ].
        destruct (fromhex s); reflexivity. }
  exact (Hgen (String.length a) a x (le_n _)).
Qed.

Lemma fromhex_two_hex (p : Z) :
  0 <= p <= 255 -> fromhex (two_hex p) = Return [p].
Proof.
  intros Hp.
  assert (forallb (fun q => returns_bytes (fromhex (two_hex q)) [q]) byte_range
          = true) as Hall by (vm_compute; reflexivity).
  rewrite forallb_forall in Hall.
  apply returns_bytes_eq, Hall, in_byte_range, Hp.
Qed.

(** X12. For a position in [0, 100] the key of [set_position] is the hex
    text of the seven bytes 57 0F 45 01 05 FF pp, where pp is the position
    sent ([position], or [100 - position] in reverse mode): that is what
    [bytearray.fromhex] makes of it. *)
Theorem set_position_key_payload (self : SwitchbotCurtain) (position : Z) :
  0 <= position <= 100 ->
  fromhex (set_position_key self position)
  = Return [0x57; 0x0F; 0x45; 0x01; 0x05; 0xFF; sent_position self position].
Proof.
  intros Hpos.
  assert (0 <= sent_position self position <= 100) as Hsent
    by (unfold sent_position; destruct (_reverse self); lia).
  unfold set_position_key. fold (sent_position self position).
  rewrite format_0_2X_byte by lia.
  rewrite (fromhex_app POSITION_KEY _ [0x57; 0x0F; 0x45; 0x01; 0x05; 0xFF])
    by (vm_compute; reflexivity).
  rewrite fromhex_two_hex by lia. reflexivity.
Qed.

Lemma set_position_key_payload_witness :
  fromhex (set_position_key plain_curtain 30)
  = Return [0x57; 0x0F; 0x45; 0x01; 0x05; 0xFF; sent_position plain_curtain 30].
Proof.
  apply (set_position_key_payload plain_curtain 30). lia.
Defined.

Lemma format_02x_payload (d : Z) :
  0 <= d <= 255 -> fromhex (format_02x d) = Return [d].
Proof.
  intros Hd.
  assert (forallb (fun q => returns_bytes (fromhex (format_02x q)) [q])
            byte_range = true) as Hall by (vm_compute; reflexivity).
  rewrite forallb_forall in Hall.
  apply returns_bytes_eq, Hall, in_byte_range, Hd.
Qed.

Lemma fromhex_minus (r : string) : fromhex (String "-" r) = Raise ValueError.
Proof. destruct r; reflexivity. Qed.

Lemma format_02x_negative (d : Z) :
  d < 0 -> exists r, format_02x d = String "-" r.
Proof.
  intros Hd. unfold format_02x. rewrite (proj2 (Z.ltb_lt d 0) Hd).
  eexists. reflexivity.
Qed.

Lemma format_02x_long (d : Z) :
  256 <= d -> (3 <= String.length (format_02x d))%nat.
Proof.
  intros Hd. unfold format_02x, zero_pad.
  rewrite (proj2 (Z.ltb_ge d 0)) by lia.
  rewrite string_length_app.
  pose proof (hex_digits_long false d Hd). lia.
Qed.

(** A two-character [format_02x] is the one of a byte. *)
Lemma format_02x_two (d : Z) (tail : string) (b : bytes) :
  String.length (format_02x d) = 2%nat ->
  fromhex (format_02x d ++ tail) = Return b ->
  0 <= d <= 255.
Proof.
  intros Hlen E.
  destruct (Z.ltb_spec d 0) as [Hneg | Hpos].
  - destruct (format_02x_negative d Hneg) as [r Hr].
    rewrite Hr in E. cbn [String.append] in E.
    rewrite fromhex_minus in E. discriminate.
  - destruct (Z.le_gt_cases d 255) as [Hbyte | Hbig]; [ lia | ].
    pose proof (format_02x_long d ltac:(lia)). lia.
Qed.

(** X13. The key of [set_long_press] is the hex text of the four bytes
    57 0F 08 dd exactly when the duration is in 0..255, and then dd is the
    duration: a duration outside that range is not reduced modulo 256. *)
Theorem set_long_press_key_payload (duration b : Z) :
  fromhex (set_long_press_key duration) = Return [0x57; 0x0F; 0x08; b]
  <-> 0 <= duration <= 255 /\ b = duration.
Proof.
  unfold set_long_press_key.
  change (DEVICE_SET_EXTENDED_KEY ++ "08" ++ format_02x duration)%string
    with ("570f08" ++ format_02x duration)%string.
  rewrite (fromhex_app "570f08" _ [0x57; 0x0F; 0x08])
    by (vm_compute; reflexivity).
  split.
  - intros E.
    destruct (fromhex (format_02x duration)) as [r | ] eqn:Er;
      [ | discriminate ].
    cbn in E. injection E as ->.
    pose proof (fromhex_length _ _ Er) as Hlen. cbn in Hlen.
    assert (0 <= duration <= 255) as Hd.
    { apply (format_02x_two duration "" [b]); [ exact Hlen | ].
      replace (format_02x duration ++ "")%string with (format_02x duration);
        [ exact Er | ].
      clear. induction (format_02x duration) as [ | c s IH]; cbn;
        [ reflexivity | rewrite <- IH; reflexivity ]. }
    split; [ exact Hd | ].
    rewrite (format_02x_payload duration Hd) in Er. congruence.
  - intros [Hd ->]. rewrite format_02x_payload by exact Hd. reflexivity.
Qed.

Lemma switch_mode_keys_checked :
  forallb
    (fun s =>
       forallb
         (fun m =>
            returns_bytes (fromhex (set_switch_mode_key (fst m) s (snd m)))
              [0x57; 0x03; s; mode_byte (fst m) (snd m)])
         [(false, false); (false, true); (true, false); (true, true)])
    byte_range = true.
Proof. vm_compute. reflexivity. Qed.

(** X14. The key of [set_switch_mode] is the hex text of the four bytes
    57 03 ss mm exactly when the strength is in 0..255; then ss is the
    strength and mm is 0x10 for switch mode plus 0x01 for inverse.  A
    strength outside 0..255 is not reduced modulo 256. *)
Theorem set_switch_mode_key_payload
    (switch_mode inverse : bool) (strength s m : Z) :
  fromhex (set_switch_mode_key switch_mode strength inverse)
  = Return [0x57; 0x03; s; m]
  <-> 0 <= strength <= 255 /\ s = strength /\ m = mode_byte switch_mode inverse.
Proof.
  assert (0 <= strength <= 255 ->
          fromhex (set_switch_mode_key switch_mode strength inverse)
          = Return [0x57; 0x03; strength; mode_byte switch_mode inverse])
    as Hforward.
  { intros Hs. pose proof switch_mode_keys_checked as Hall.
    rewrite forallb_forall in Hall.
    specialize (Hall strength (in_byte_range strength Hs)).
    rewrite forallb_forall in Hall.
    apply returns_bytes_eq.
    apply (Hall (switch_mode, inverse)).
    destruct switch_mode, inverse; cbn; tauto. }
  split.
  - intros E.
    assert (0 <= strength <= 255) as Hs.
    { unfold set_switch_mode_key in E.
      change (DEVICE_SET_MODE_KEY ++ format_02x strength
              ++ format_b switch_mode ++ format_b inverse)%string
        with ("5703" ++ (format_02x strength
                         ++ format_b switch_mode ++ format_b inverse))%string
        in E.
      rewrite (fromhex_app "5703" _ [0x57; 0x03]) in E
        by (vm_compute; reflexivity).
      destruct (fromhex (format_02x strength
                         ++ format_b switch_mode ++ format_b inverse))
        as [r | ] eqn:Er; [ | discriminate ].
      cbn in E. injection E as ->.
      pose proof (fromhex_length _ _ Er) as Hlen.
      rewrite string_length_app in Hlen.
      apply (format_02x_two strength _ _) with (2 := Er).
      destruct switch_mode, inverse; cbn in Hlen; lia. }
    rewrite (Hforward Hs) in E. injection E as <- <-.
    repeat split; try reflexivity; lia.
  - intros (Hs & -> & ->). exact (Hforward Hs).
Qed.

(* ================================================================== *)
(** * More on the transaction engine *)
(* ================================================================== *)

Ltac unfold_engine :=
  unfold _sendcommand, _sendcommand_try, try_finally, try_except_BleakError,
    _connect, _subscribe, _writekey, _readkey, _disconnect,
    try_except_BleakError, bind, lift, call, sleep, ret, raise, record;
  cbn [link trace fst snd].

Ltac link_cases :=
  repeat match goal with
         | |- context [match link ?w ?t ?ev with _ => _ end] =>
             destruct (link w t ev) as [? | ?];
             cbn [link trace fst snd]
         | |- context [if is_BleakError ?e then _ else _] =>
             destruct (is_BleakError e) eqn:?;
             cbn [link trace fst snd]
         end.


(** Every call of [_sendcommand] ends before the write: it makes connect,
    subscribe and disconnect calls only, and either returns the preset
    [b"\x00"] or raises. *)
Lemma sendcommand_outcome
    (self : SwitchbotDevice) (key : string) (retry : Z) (w : World) :
  link (fst (_sendcommand self key retry w)) = link w /\
  (exists evs,
     trace (fst (_sendcommand self key retry w)) = trace w ++ evs /\
     forallb is_setup_or_disconnect evs = true) /\
  (snd (_sendcommand self key retry w) = Return (PBytes [0]) \/
   exists e, snd (_sendcommand self key retry w) = Raise e).
Proof.
  unfold_engine. link_cases;
    (split; [ reflexivity | ]);
    (split;
     [ rewrite <- ?app_assoc; eexists; split; [ reflexivity | reflexivity ]
     | first [ left; reflexivity | right; eexists; reflexivity ] ]).
Qed.

(** X15. Whatever the link does and whatever key and retry count it is
    given, [_sendcommand] never writes to the device and never reads from it:
    it calls connect, subscribe and disconnect only, never sleeps to retry,
    and either returns the preset [b"\x00"] or raises. *)
Theorem sendcommand_never_reaches_device
    (self : SwitchbotDevice) (key : string) (retry : Z) (w : World) :
  (exists evs,
     trace (fst (_sendcommand self key retry w)) = trace w ++ evs /\
     forallb is_setup_or_disconnect evs = true) /\
  (snd (_sendcommand self key retry w) = Return (PBytes [0]) \/
   exists e, snd (_sendcommand self key retry w) = Raise e).
Proof. exact (proj2 (sendcommand_outcome self key retry w)). Qed.

Lemma command_never_true
    (device : SwitchbotDevice) (key : string) (f : pyval -> outcome bool)
    (w : World) :
  f (PBytes [0]) = Return false ->
  let r := bind (_sendcommand device key (_retry_count device))
             (fun result => lift (f result)) w in
  snd r = Return false \/ exists e, snd r = Raise e.
Proof.
  intros Hf. cbn zeta. unfold bind.
  destruct (sendcommand_outcome device key (_retry_count device) w)
    as (_ & _ & [E | [e E]]);
    destruct (_sendcommand device key (_retry_count device) w) as [w' o];
    cbn [snd] in E; subst o.
  - left. unfold lift. cbn. exact Hf.
  - right. exists e. reflexivity.
Qed.

(** X16. None of the nine command methods ever returns true: whatever the
    link does, each returns false or raises. *)
Theorem command_methods_never_succeed
    (bot : Switchbot) (curtain : SwitchbotCurtain)
    (switch : bool) (strength : Z) (inverse : bool) (duration position : Z)
    (w : World) :
  let failed (r : World * outcome bool) :=
    snd r = Return false \/ exists e, snd r = Raise e in
  failed (turn_on bot w) /\
  failed (turn_off bot w) /\
  failed (press bot w) /\
  failed (set_switch_mode bot switch strength inverse w) /\
  failed (set_long_press bot duration w) /\
  failed (open curtain w) /\
  failed (close curtain w) /\
  failed (stop curtain w) /\
  failed (set_position curtain position w).
Proof.
  cbn zeta.
  repeat split;
    match goal with
    | |- snd (?m) = _ \/ _ =>
        first
          [ exact (command_never_true (bot_device bot) _ _ w eq_refl)
          | exact (command_never_true (curtain_device curtain) _ _ w eq_refl) ]
    end.
Qed.



(** X19. When the command is a str of hex pairs and the link accepts the
    five calls, the [try] statement of [_sendcommand] connects, subscribes,
    writes the bytes of the command, reads and disconnects, in this order,
    and its value is what the read returned. *)
Theorem sendcommand_try_complete_exchange
    (s : string) (payload notify_msg received : bytes) (w : World)
    (r1 r2 r3 r5 : bytes) :
  fromhex s = Return payload ->
  link w (trace w) EvConnect = Done r1 ->
  link w (trace w ++ [EvConnect]) EvStartNotify = Done r2 ->
  link w (trace w ++ [EvConnect; EvStartNotify]) (EvWrite payload) = Done r3 ->
  link w (trace w ++ [EvConnect; EvStartNotify; EvWrite payload]) EvRead
  = Done received ->
  link w (trace w ++ [EvConnect; EvStartNotify; EvWrite payload; EvRead])
    EvDisconnect = Done r5 ->
  _sendcommand_try (PStr s) notify_msg w
  = ({| link := link w;
        trace := trace w ++ [EvConnect; EvStartNotify; EvWrite payload; EvRead;
                             EvDisconnect] |},
     Return received).
Proof.
  intros Hhex H1 H2 H3 H4 H5.
  unfold_engine. rewrite Hhex. cbn [link trace fst snd].
  rewrite H1. cbn [link trace fst snd].
  rewrite H2. cbn [link trace fst snd].
  rewrite <- !app_assoc. cbn [app].
  rewrite H3. cbn [link trace fst snd].
  rewrite <- !app_assoc. cbn [app].
  rewrite H4. cbn [link trace fst snd is_BleakError].
  rewrite <- !app_assoc. cbn [app].
  rewrite H5. cbn [link trace fst snd].
  rewrite <- ?app_assoc. reflexivity.
Qed.

Lemma sendcommand_try_complete_exchange_witness :
  _sendcommand_try (PStr ON_KEY) [0] (fresh (flaky_link 0 [1]))
  = ({| link := link (fresh (flaky_link 0 [1]));
        trace := trace (fresh (flaky_link 0 [1]))
                 ++ [EvConnect; EvStartNotify; EvWrite [0x57; 0x01; 0x01];
                     EvRead; EvDisconnect] |},
     Return [1]).
Proof.
  apply (sendcommand_try_complete_exchange ON_KEY [0x57; 0x01; 0x01] [0] [1]
           (fresh (flaky_link 0 [1])) [] [] [] []);
    reflexivity.
Defined.

(* ================================================================== *)
(** * The cached state: accessors and update *)
(* ================================================================== *)

Lemma stored_entry_curtain (device : BLEDevice) (uuid : string)
    (others : dict bytes) (b0 b1 b2 b3 b4 : Z) (rest : bytes) :
  ascii_of_nat (Z.to_nat (Z.land b0 127)) = "c"%char ->
  exists e d,
    stored_entry device
      {| adv_service_data := (uuid, b0 :: b1 :: b2 :: b3 :: b4 :: rest) :: others |}
    = Some e /\
    data e = DataCurtain d /\
    _process_wocurtain (b0 :: b1 :: b2 :: b3 :: b4 :: rest) true = Return d.
Proof.
  intros Hc. unfold stored_entry, detection_callback.
  cbn [adv_service_data dict_values map snd getitem nth_error].
  rewrite Hc. cbn [Ascii.eqb Bool.eqb].
  unfold _process_wocurtain. cbn [getitem nth_error obind].
  cbn [fst _data set__data GetSwitchbotDevices__init__ dict_set dict_get].
  rewrite String.eqb_refl.
  eexists _, _. split; [ reflexivity | ]. split; reflexivity.
Qed.

(** X20. When the cache of a curtain holds the record a scan files for a
    Curtain advertisement of at least 5 bytes, [get_position] returns 100
    minus the clamped raw position, whatever the [reverse_mode] of the
    object: the scan always decodes in reverse.  [get_light_level],
    [is_calibrated] and [get_battery_percent] return the light nibble, bit 6
    of byte 1 and the low 7 bits of byte 2; none of them calls the link. *)
Theorem curtain_accessors_of_scanned
    (self : SwitchbotCurtain) (device : BLEDevice) (uuid : string)
    (others : dict bytes) (b0 b1 b2 b3 b4 : Z) (rest : bytes) (w : World) :
  ascii_of_nat (Z.to_nat (Z.land b0 127)) = "c"%char ->
  exists e,
    stored_entry device
      {| adv_service_data := (uuid, b0 :: b1 :: b2 :: b3 :: b4 :: rest) :: others |}
    = Some e /\
    let cached := set_curtain_cache self (Some e) in
    get_position cached w
    = (w, Return (Some (100 - Z.max (Z.min (Z.land b3 127) 100) 0))) /\
    get_light_level cached w = (w, Return (Some (Z.land (Z.shiftr b4 4) 15))) /\
    is_calibrated cached w = (w, Return (Some (Z.testbit b1 6))) /\
    get_battery_percent (curtain_device cached) w
    = (w, Return (Some (Z.land b2 127))) /\
    is_reversed cached w = (w, Return (_reverse self)).
Proof.
  intros Hc.
  destruct (stored_entry_curtain device uuid others b0 b1 b2 b3 b4 rest Hc)
    as (e & d & He & Hd & Hdec).
  exists e. split; [ exact He | ]. cbn zeta.
  unfold get_position, get_light_level, is_calibrated, curtain_cached,
    get_battery_percent, is_reversed.
  cbn [set_curtain_cache curtain_device _switchbot_device_data _reverse].
  rewrite Hd.
  unfold _process_wocurtain in Hdec. cbn [getitem nth_error obind] in Hdec.
  injection Hdec as <-.
  cbn [position lightLevel calibration curtain_battery].
  change 64 with (2 ^ 6). rewrite truthy_land_pow2 by lia.
  repeat split.
Qed.

Lemma curtain_accessors_of_scanned_witness :
  exists e,
    stored_entry (fst curtain_advert)
      {| adv_service_data := [("uuid", [0x63; 0x40; 0x50; 0x1E; 0x31])] |}
    = Some e /\
    let cached := set_curtain_cache plain_curtain (Some e) in
    get_position cached (fresh (flaky_link 0 [1]))
    = (fresh (flaky_link 0 [1]),
       Return (Some (100 - Z.max (Z.min (Z.land 0x1E 127) 100) 0))) /\
    get_light_level cached (fresh (flaky_link 0 [1]))
    = (fresh (flaky_link 0 [1]), Return (Some (Z.land (Z.shiftr 0x31 4) 15))) /\
    is_calibrated cached (fresh (flaky_link 0 [1]))
    = (fresh (flaky_link 0 [1]), Return (Some (Z.testbit 0x40 6))) /\
    get_battery_percent (curtain_device cached) (fresh (flaky_link 0 [1]))
    = (fresh (flaky_link 0 [1]), Return (Some (Z.land 0x50 127))) /\
    is_reversed cached (fresh (flaky_link 0 [1]))
    = (fresh (flaky_link 0 [1]), Return (_reverse plain_curtain)).
Proof.
  apply (curtain_accessors_of_scanned plain_curtain (fst curtain_advert) "uuid"
           [] 0x63 0x40 0x50 0x1E 0x31 [] (fresh (flaky_link 0 [1]))).
  reflexivity.
Defined.

(** X21. When the cache of a Bot holds the record a scan files for a Bot
    advertisement of at least 3 bytes, [switch_mode] returns bit 7 of byte 1,
    [is_on] returns "bit 7 set and bit 6 clear", negated under
    [inverse_mode], and [get_battery_percent] returns the low 7 bits of
    byte 2; none of them calls the link. *)
Theorem bot_accessors_of_scanned
    (self : Switchbot) (device : BLEDevice) (uuid : string)
    (others : dict bytes) (b0 b1 b2 : Z) (rest : bytes) (w : World) :
  ascii_of_nat (Z.to_nat (Z.land b0 127)) = "H"%char ->
  exists e,
    stored_entry device
      {| adv_service_data := (uuid, b0 :: b1 :: b2 :: rest) :: others |}
    = Some e /\
    let cached := set_cache self (Some e) in
    switch_mode cached w = (w, Return (Some (Z.testbit b1 7))) /\
    is_on cached w
    = (w, Return (Some (xorb (_inverse self)
                          (Z.testbit b1 7 && negb (Z.testbit b1 6))))) /\
    get_battery_percent (bot_device cached) w
    = (w, Return (Some (Z.land b2 127))).
Proof.
  intros Hh.
  assert (truthy (Z.land b1 128) = Z.testbit b1 7) as H7
    by (apply (truthy_land_pow2 b1 7); lia).
  assert (truthy (Z.land b1 64) = Z.testbit b1 6) as H6
    by (apply (truthy_land_pow2 b1 6); lia).
  unfold stored_entry, detection_callback.
  cbn [adv_service_data dict_values map snd getitem nth_error].
  rewrite Hh. cbn [Ascii.eqb Bool.eqb].
  unfold _process_wohand. cbn [getitem nth_error obind]. rewrite H7, H6.
  destruct (Z.testbit b1 7); cbn [obind];
    cbn [fst _data set__data GetSwitchbotDevices__init__ dict_set dict_get];
    rewrite String.eqb_refl;
    (eexists; split; [ reflexivity | ]); cbn zeta;
    unfold switch_mode, is_on, get_battery_percent;
    cbn [set_cache bot_device _switchbot_device_data _inverse data
         set_entry_data set_modelName switchMode isOn bot_battery];
    destruct (_inverse self), (Z.testbit b1 6); repeat split.
Qed.

Lemma bot_accessors_of_scanned_witness :
  exists e,
    stored_entry (fst bot_advert)
      {| adv_service_data := [("uuid", [0x48; 0x80; 0x5F])] |}
    = Some e /\
    let cached :=
      set_cache {| bot_device := locked_device; _inverse := true |} (Some e) in
    switch_mode cached (fresh (flaky_link 0 [1]))
    = (fresh (flaky_link 0 [1]), Return (Some (Z.testbit 0x80 7))) /\
    is_on cached (fresh (flaky_link 0 [1]))
    = (fresh (flaky_link 0 [1]),
       Return (Some (xorb true (Z.testbit 0x80 7 && negb (Z.testbit 0x80 6))))) /\
    get_battery_percent (bot_device cached) (fresh (flaky_link 0 [1]))
    = (fresh (flaky_link 0 [1]), Return (Some (Z.land 0x5F 127))).
Proof.
  apply (bot_accessors_of_scanned
           {| bot_device := locked_device; _inverse := true |}
           (fst bot_advert) "uuid" [] 0x48 0x80 0x5F []
           (fresh (flaky_link 0 [1]))).
  reflexivity.
Defined.

(** X22. [update] never fills the cache: whatever its arguments and the
    link, it raises [TypeError] (the scanner's getter is a plain method, and
    its dict is awaited) before any scan and without any call on the link,
    and leaves the object as it was; so [is_on] answers after it what it
    answered before. *)
Theorem update_never_fills_cache
    (self : Switchbot) (interface : option Z) (passive : bool) (w : World) :
  update self interface passive w = (w, (self, Raise TypeError)) /\
  is_on (fst (snd (update self interface passive w))) w = is_on self w.
Proof.
  assert (update self interface passive w = (w, (self, Raise TypeError))) as E
    by (destruct self as [base inverse]; reflexivity).
  split; [ exact E | ]. rewrite E. reflexivity.
Qed.

(* ================================================================== *)
(** * The read methods *)
(* ================================================================== *)

Lemma land_pow2_cases (b n : Z) :
  0 <= n -> Z.land b (2 ^ n) = if Z.testbit b n then 2 ^ n else 0.
Proof.
  intros Hn. apply Z.bits_inj'. intros m Hm.
  rewrite Z.land_spec, Z.pow2_bits_eqb by lia.
  destruct (Z.eqb_spec n m) as [-> | Hne].
  - destruct (Z.testbit b m) eqn:E.
    + rewrite Z.pow2_bits_true by lia. reflexivity.
    + rewrite Z.bits_0. reflexivity.
  - rewrite andb_false_r.
    destruct (Z.testbit b n).
    + rewrite Z.pow2_bits_false by lia. reflexivity.
    + rewrite Z.bits_0. reflexivity.
Qed.

Ltac lookup :=
  repeat (rewrite dict_get_set_other by discriminate);
  try rewrite dict_get_set_same.

Ltac unfold_basic :=
  unfold Switchbot_get_basic_info_result,
    SwitchbotCurtain_get_basic_info_result, basic_info_result,
    Switchbot_basic_fields, SwitchbotCurtain_basic_fields, read_item,
    subscript;
  cbn [falsy is_sentinel getitem nth_error obind stored tenth flag
       open_direction clamped_position assign_all fst snd nth].

(** X23. [Switchbot.get_basic_info], on the bytes of a transaction: it
    returns [None] and leaves [_settings] alone on the empty answer, on
    [b"\x07"] and on [b"\x00"]; on any other answer of fewer than 11 bytes
    it raises [IndexError], after it has overwritten the battery when there
    are at least 2 bytes; on 11 bytes or more it returns [_settings] with
    battery, firmware (byte 2 over 10), strength, timers, switchMode (bit 4
    of byte 9), inverseDirection (bit 0 of byte 9) and holdSeconds read at
    offsets 1, 2, 3, 8, 9, 9 and 10, every other key being kept. *)
Theorem bot_basic_info_by_length (_settings : dict pyfield) (b : bytes) :
  let r := Switchbot_get_basic_info_result _settings (PBytes b) in
  if is_no_answer b then r = (_settings, Return None)
  else if (11 <=? List.length b)%nat then
    r = (fst r, Return (Some (fst r))) /\
    dict_get "battery" (fst r) = Some (FInt (nth 1 b 0)) /\
    dict_get "firmware" (fst r)
    = Some (FFloat (PrimFloat.div (float_of_int (nth 2 b 0)) (float_of_int 10))) /\
    dict_get "strength" (fst r) = Some (FInt (nth 3 b 0)) /\
    dict_get "timers" (fst r) = Some (FInt (nth 8 b 0)) /\
    dict_get "switchMode" (fst r) = Some (FBool (Z.testbit (nth 9 b 0) 4)) /\
    dict_get "inverseDirection" (fst r)
    = Some (FBool (Z.testbit (nth 9 b 0) 0)) /\
    dict_get "holdSeconds" (fst r) = Some (FInt (nth 10 b 0)) /\
    (forall k,
       ~ In k ["battery"; "firmware"; "strength"; "timers"; "switchMode";
               "inverseDirection"; "holdSeconds"] ->
       dict_get k (fst r) = dict_get k _settings)
  else
    snd r = Raise IndexError /\
    if (2 <=? List.length b)%nat
    then dict_get "battery" (fst r) = Some (FInt (nth 1 b 0))
    else fst r = _settings.
Proof.
  cbn zeta.
  destruct b as [ | b0 [ | b1 [ | b2 [ | b3 [ | b4 [ | b5 [ | b6 [ | b7
                 [ | b8 [ | b9 [ | b10 rest]]]]]]]]]]];
    try reflexivity;
    try (split; [ reflexivity | unfold_basic; lookup; reflexivity ]).
  - unfold is_no_answer, bytes_eqb.
    cbn [List.length Nat.eqb combine forallb fst snd andb orb].
    rewrite !andb_true_r. unfold_basic.
    destruct (b0 =? 7); [ reflexivity | ].
    destruct (b0 =? 0); [ reflexivity | split; reflexivity ].
  - change (is_no_answer _) with false.
    change ((11 <=? _)%nat) with true. cbv iota.
    unfold_basic.
    assert (truthy (Z.land b9 16) = Z.testbit b9 4) as H4
      by (apply (truthy_land_pow2 b9 4); lia).
    assert (truthy (Z.land b9 1) = Z.testbit b9 0) as H0
      by (apply (truthy_land_pow2 b9 0); lia).
    rewrite H4, H0.
    split; [ reflexivity | ].
    repeat (split; [ lookup; reflexivity | ]).
    intros k Hk. cbn [In] in Hk.
    repeat (rewrite dict_get_set_other by (intros ->; tauto)).
    reflexivity.
Qed.

Lemma truthy_lor (x y : Z) : truthy (Z.lor x y) = truthy x || truthy y.
Proof.
  unfold truthy.
  destruct (Z.eqb_spec x 0) as [-> | Hx]; cbn.
  - reflexivity.
  - destruct (Z.eqb_spec (Z.lor x y) 0) as [E | _]; [ | reflexivity ].
    apply Z.lor_eq_0_iff in E. tauto.
Qed.

Lemma truthy_land_67 (b : Z) :
  truthy (Z.land b 67) = Z.testbit b 0 || Z.testbit b 1 || Z.testbit b 6.
Proof.
  change 67 with (Z.lor (Z.lor (2 ^ 0) (2 ^ 1)) (2 ^ 6)).
  rewrite !Z.land_lor_distr_r, !truthy_lor, !truthy_land_pow2 by lia.
  reflexivity.
Qed.

Lemma land_128_test (b : Z) : (Z.land b 128 =? 128) = Z.testbit b 7.
Proof.
  change 128 with (2 ^ 7). rewrite land_pow2_cases by lia.
  destruct (Z.testbit b 7); reflexivity.
Qed.

(** X24. [SwitchbotCurtain.get_basic_info], on the bytes of a transaction:
    [None] on the empty answer, [b"\x07"] and [b"\x00"]; [IndexError] on any
    other answer of fewer than 8 bytes; on 8 bytes or more the settings with
    the position clamped to [0, 100] (100 minus it in reverse mode), the
    open direction "right_to_left" exactly when bit 7 of byte 4 is set,
    inMotion true exactly when one of bits 0, 1, 6 of byte 5 is set, and the
    other fields at their offsets. *)
Theorem curtain_basic_info_by_length
    (self : SwitchbotCurtain) (_settings : dict pyfield) (b : bytes) :
  let r := SwitchbotCurtain_get_basic_info_result self _settings (PBytes b) in
  if is_no_answer b then r = (_settings, Return None)
  else if (8 <=? List.length b)%nat then
    r = (fst r, Return (Some (fst r))) /\
    (exists p,
       dict_get "position" (fst r) = Some (FInt p) /\
       in_range 0 100 p = true /\
       p = let clamped := Z.max (Z.min (nth 6 b 0) 100) 0 in
           if _reverse self then 100 - clamped else clamped) /\
    dict_get "openDirection" (fst r)
    = Some (FStr (if Z.testbit (nth 4 b 0) 7 then "right_to_left"
                  else "left_to_right")) /\
    dict_get "inMotion" (fst r)
    = Some (FBool (Z.testbit (nth 5 b 0) 0 || Z.testbit (nth 5 b 0) 1
                   || Z.testbit (nth 5 b 0) 6)) /\
    dict_get "battery" (fst r) = Some (FInt (nth 1 b 0)) /\
    dict_get "firmware" (fst r)
    = Some (FFloat (PrimFloat.div (float_of_int (nth 2 b 0)) (float_of_int 10))) /\
    dict_get "chainLength" (fst r) = Some (FInt (nth 3 b 0)) /\
    dict_get "touchToOpen" (fst r) = Some (FBool (Z.testbit (nth 4 b 0) 6)) /\
    dict_get "light" (fst r) = Some (FBool (Z.testbit (nth 4 b 0) 5)) /\
    dict_get "fault" (fst r) = Some (FBool (Z.testbit (nth 4 b 0) 3)) /\
    dict_get "solarPanel" (fst r) = Some (FBool (Z.testbit (nth 5 b 0) 3)) /\
    dict_get "calibrated" (fst r) = Some (FBool (Z.testbit (nth 5 b 0) 2)) /\
    dict_get "timers" (fst r) = Some (FInt (nth 7 b 0))
  else snd r = Raise IndexError.
Proof.
  cbn zeta.
  destruct b as [ | b0 [ | b1 [ | b2 [ | b3 [ | b4 [ | b5 [ | b6 [ | b7 rest]]]]]]]];
    try reflexivity.
  - unfold is_no_answer, bytes_eqb.
    cbn [List.length Nat.eqb combine forallb fst snd andb orb].
    rewrite !andb_true_r. unfold_basic.
    destruct (b0 =? 7); [ reflexivity | ].
    destruct (b0 =? 0); reflexivity.
  - change (is_no_answer _) with false.
    change ((8 <=? _)%nat) with true. cbv iota.
    unfold_basic.
    rewrite land_128_test, truthy_land_67.
    change 64 with (2 ^ 6). change 32 with (2 ^ 5).
    change 8 with (2 ^ 3). change 4 with (2 ^ 2).
    rewrite !truthy_land_pow2 by lia.
    split; [ reflexivity | ].
    split.
    { eexists. split; [ lookup; reflexivity | ].
      split; [ apply in_range_clamp | reflexivity ]. }
    repeat (split; [ lookup; reflexivity | ]).
    lookup; reflexivity.
Qed.

Section DictUpdates.
Context {V : Type}.

Lemma dict_set_set_same (k : string) (v1 v2 : V) (d : dict V) :
  dict_set k v2 (dict_set k v1 d) = dict_set k v2 d.
Proof.
  induction d as [ | [k' v'] d IH]; cbn.
  - rewrite String.eqb_refl. reflexivity.
  - destruct (String.eqb k' k) eqn:E; cbn.
    + rewrite String.eqb_refl. reflexivity.
    + rewrite E, IH. reflexivity.
Qed.
End DictUpdates.

Lemma land_16_is_not_1 (b : Z) : (Z.land b 16 =? 1) = false.
Proof.
  change 16 with (2 ^ 4). rewrite land_pow2_cases by lia.
  destruct (Z.testbit b 4); reflexivity.
Qed.

Ltac run_update :=
  unfold ubind, ulift, uret, new_device, set_field, return_info;
  cbn [getitem nth_error fst snd];
  repeat (first [ rewrite dict_get_set_same
                | rewrite dict_set_set_same
                | rewrite dict_get_set_other by discriminate ];
          cbn [fst snd dict_set String.eqb Ascii.eqb Bool.eqb]).

(** X25. [get_extended_info_summary], on the bytes of a transaction: [None]
    unless the first byte is 1; [IndexError] on fewer than 3 bytes, after
    [device0] has been replaced; otherwise [device0] holds the three flags of
    byte 1 and the open direction "right_to_left", whatever bit 4 of byte 1
    is; when byte 2 is not 0, [device1] holds the same three flags, read
    from byte 1 again, and the direction of bit 4 of byte 1; when byte 2 is
    0, the [device1] of an earlier call stays. *)
Theorem extended_info_summary_by_bytes (ext_info_sum : info) (data : bytes) :
  let r := get_extended_info_summary_result (PBytes data) ext_info_sum in
  match data with
  | [] => r = (ext_info_sum, Return None)
  | b0 :: following =>
      if b0 =? 1 then
        match following with
        | [] =>
            snd r = Raise IndexError /\ dict_get "device0" (fst r) = Some []
        | [b1] =>
            snd r = Raise IndexError /\
            dict_get "device0" (fst r)
            = Some (summary_flags b1
                    ++ [("openDirection", FStr "right_to_left")])
        | b1 :: b2 :: _ =>
            r = (fst r, Return (Some (fst r))) /\
            dict_get "device0" (fst r)
            = Some (summary_flags b1
                    ++ [("openDirection", FStr "right_to_left")]) /\
            if b2 =? 0
            then dict_get "device1" (fst r) = dict_get "device1" ext_info_sum
            else dict_get "device1" (fst r)
                 = Some (summary_flags b1
                         ++ [("openDirection",
                              FStr (if Z.testbit b1 4 then "left_to_right"
                                    else "right_to_left"))])
        end
      else r = (ext_info_sum, Return None)
  end.
Proof.
  cbn zeta. destruct data as [ | b0 following]; [ reflexivity | ].
  unfold get_extended_info_summary_result, ext_guard.
  destruct (b0 =? 1); [ | reflexivity ].
  destruct following as [ | b1 [ | b2 rest]].
  - run_update. split; reflexivity.
  - run_update. rewrite land_16_is_not_1.
    change 128 with (2 ^ 7). change 64 with (2 ^ 6). change 32 with (2 ^ 5).
    rewrite !truthy_land_pow2 by lia.
    run_update. split; reflexivity.
  - run_update. rewrite land_16_is_not_1.
    change 128 with (2 ^ 7). change 64 with (2 ^ 6). change 32 with (2 ^ 5).
    change 16 with (2 ^ 4).
    rewrite !truthy_land_pow2 by lia.
    destruct (b2 =? 0); cbn [negb]; run_update.
    + split; [ reflexivity | ]. split; [ reflexivity | ].
      run_update. reflexivity.
    + split; [ reflexivity | ]. split; run_update; reflexivity.
Qed.

(** X26. [get_extended_info_adv], on the bytes of a transaction: [None]
    unless the first byte is 1; [IndexError] on fewer than 5 bytes, and on
    fewer than 7 when byte 4 is not 0.  Otherwise [device0] holds battery
    (byte 1), firmware (byte 2 over 10) and the state of charge of byte 3,
    if byte 3 is one of 0..6.  When byte 4 is not 0, [device1] holds battery
    (byte 4) and firmware (byte 5 over 10) and never a state of charge: the
    state of byte 6, if byte 6 is one of 0..6, is written over the one of
    [device0].  When byte 4 is 0 the [device1] of an earlier call stays. *)
Theorem extended_info_adv_by_bytes (ext_info_adv : info) (data : bytes) :
  let r := get_extended_info_adv_result (PBytes data) ext_info_adv in
  match data with
  | [] => r = (ext_info_adv, Return None)
  | b0 :: following =>
      if b0 =? 1 then
        match following with
        | b1 :: b2 :: b3 :: b4 :: tail =>
            if b4 =? 0 then
              r = (fst r, Return (Some (fst r))) /\
              dict_get "device0" (fst r)
              = Some (adv_fields b1 b2 ++ charge_field b3) /\
              dict_get "device1" (fst r) = dict_get "device1" ext_info_adv
            else
              match tail with
              | b5 :: b6 :: _ =>
                  r = (fst r, Return (Some (fst r))) /\
                  dict_get "device0" (fst r)
                  = Some (adv_fields b1 b2
                          ++ match state_of_charge b6 with
                             | Some _ => charge_field b6
                             | None => charge_field b3
                             end) /\
                  dict_get "device1" (fst r) = Some (adv_fields b4 b5)
              | _ => snd r = Raise IndexError
              end
        | _ => snd r = Raise IndexError
        end
      else r = (ext_info_adv, Return None)
  end.
Proof.
  cbn zeta. destruct data as [ | b0 following]; [ reflexivity | ].
  unfold get_extended_info_adv_result, ext_guard, set_state_of_charge,
    charge_field, adv_fields.
  destruct (b0 =? 1); [ | reflexivity ].
  destruct following as [ | b1 [ | b2 [ | b3 [ | b4 tail]]]];
    try (run_update; reflexivity).
  - run_update. destruct (state_of_charge b3); run_update; reflexivity.
  - run_update; destruct (state_of_charge b3); run_update;
      unfold truthy; destruct (b4 =? 0); cbn [negb]; run_update.
    1, 3: (split; [ reflexivity | ]); split; run_update; reflexivity.
    all: destruct tail as [ | b5 [ | b6 rest]]; run_update;
      try reflexivity;
      destruct (state_of_charge b6); run_update;
      (split; [ reflexivity | ]); split; run_update; reflexivity.
Qed.

(** X27. Whatever the link does, none of the four read methods ever returns
    a record: each returns [None] or raises, and leaves its dict
    ([_settings], [ext_info_sum], [ext_info_adv]) as it was. *)
Theorem read_methods_never_answer
    (bot : Switchbot) (curtain : SwitchbotCurtain)
    (_settings : dict pyfield) (ext_info : info) (w : World) :
  (snd (Switchbot_get_basic_info bot _settings w) = (_settings, Return None) \/
   exists e,
     snd (Switchbot_get_basic_info bot _settings w) = (_settings, Raise e)) /\
  (snd (SwitchbotCurtain_get_basic_info curtain _settings w)
   = (_settings, Return None) \/
   exists e,
     snd (SwitchbotCurtain_get_basic_info curtain _settings w)
     = (_settings, Raise e)) /\
  (snd (get_extended_info_summary curtain ext_info w)
   = (ext_info, Return None) \/
   exists e,
     snd (get_extended_info_summary curtain ext_info w) = (ext_info, Raise e)) /\
  (snd (get_extended_info_adv curtain ext_info w) = (ext_info, Return None) \/
   exists e,
     snd (get_extended_info_adv curtain ext_info w) = (ext_info, Raise e)).
Proof.
  unfold Switchbot_get_basic_info, SwitchbotCurtain_get_basic_info,
    get_extended_info_summary, get_extended_info_adv.
  repeat split;
    match goal with
    | |- context [_sendcommand ?d ?k ?n w] =>
        destruct (sendcommand_outcome d k n w) as (_ & _ & [E | [e E]]);
        destruct (_sendcommand d k n w) as [w' o];
        cbn [snd] in E; subst o; cbn [snd];
        [ left; reflexivity | right; exists e; reflexivity ]
    end.
Qed.

(** The Bot methods hand these keys to [_sendcommand]. *)
Lemma set_long_press_unfold (self : Switchbot) (duration : Z) :
  set_long_press self duration
  = bind (_sendcommand (bot_device self) (set_long_press_key duration)
            (_retry_count (bot_device self)))
      (fun result => lift (set_long_press_result result)).
Proof. reflexivity. Qed.

Lemma set_switch_mode_unfold (self : Switchbot) (switch_mode : bool)
    (strength : Z) (inverse : bool) :
  set_switch_mode self switch_mode strength inverse
  = bind (_sendcommand (bot_device self)
            (set_switch_mode_key switch_mode strength inverse)
            (_retry_count (bot_device self)))
      (fun result => lift (set_switch_mode_result result)).
Proof. reflexivity. Qed.
